(** * import_export.widgets: conversion between import/export text and
    Python values

    A shallow embedding of [import_export/widgets.py].  Every widget class
    of the module is a Rocq [Module] of the same name holding its [clean]
    and [render] methods.  The collaborators the module imports (the Django
    cache, the ORM manager of a model, [int], [Decimal], [strptime] and
    [strftime]) are modelled next to the code that calls them; the widgets
    themselves follow the source line by line. *)

From Stdlib Require Import ZArith String Ascii List Bool Lia.
From Stdlib Require Import DecimalString DecimalN.
From stdpp Require Import base option gmap strings list.
Import ListNotations.

Local Open Scope string_scope.
Local Open Scope Z_scope.

(** ** Python values *)

(** A [decimal.Decimal]: sign, coefficient and exponent of a finite number
    (the coefficient is the number whose digits are [_int]), an infinity, or
    a (possibly signaling) NaN with its diagnostic digits. *)
Inductive decimal :=
| DecFinite (sign : bool) (coeff : N) (exp : Z)
| DecInf (sign : bool)
| DecNaN (sign : bool) (signaling : bool) (diag : N).

(** [datetime.date] and a naive [datetime.datetime]. *)
Record date := mkDate { year : Z; month : Z; day : Z }.

Record datetime := mkDateTime {
  dt_date : date;
  hour : Z;
  minute : Z;
  second : Z;
  microsecond : Z
}.

(** The primary key of a row: an integer (AutoField, IntegerField) or a
    text (CharField). *)
Inductive pk_value :=
| PkInt (n : Z)
| PkStr (s : string).

(** A model instance (one row of the model's table): its [pk] attribute,
    the value of its [title] column, read only for a model that declares the
    field, and its text ([unicode(obj)]). *)
Record instance := mkInstance {
  inst_pk : pk_value;
  inst_title : string;
  inst_text : string
}.

Inductive val :=
| VNone
| VStr (s : string)
| VInt (n : Z)
| VBool (b : bool)
| VDecimal (d : decimal)
| VDate (d : date)
| VDateTime (d : datetime)
| VObj (o : instance).

(** The exceptions that can cross a widget method. [DoesNotExist] is the
    model's own subclass of [ObjectDoesNotExist]. *)
Inductive exn :=
| ValueError (msg : string)
| TypeError (msg : string)
| AttributeError (msg : string)
| OverflowError (msg : string)
| InvalidOperation (msg : string)
| ReError (msg : string)
| FieldDoesNotExist (msg : string)
| DoesNotExist (msg : string)
| MultipleObjectsReturned (msg : string).

Inductive outcome (A : Type) :=
| Return (a : A)
| Raise (e : exn).
Arguments Return {A} a.
Arguments Raise {A} e.

Definition is_ObjectDoesNotExist (e : exn) : bool :=
  match e with DoesNotExist _ => true | _ => false end.

Definition is_ValueError (e : exn) : bool :=
  match e with ValueError _ => true | _ => false end.

Definition is_FieldDoesNotExist (e : exn) : bool :=
  match e with FieldDoesNotExist _ => true | _ => false end.

#[global] Instance pk_value_eq_dec : EqDecision pk_value.
Proof. solve_decision. Defined.

#[global] Instance decimal_eq_dec : EqDecision decimal.
Proof. solve_decision. Defined.

#[global] Instance date_eq_dec : EqDecision date.
Proof. solve_decision. Defined.

#[global] Instance datetime_eq_dec : EqDecision datetime.
Proof. solve_decision. Defined.

#[global] Instance instance_eq_dec : EqDecision instance.
Proof. solve_decision. Defined.

#[global] Instance val_eq_dec : EqDecision val.
Proof. solve_decision. Defined.

(** ** Text primitives *)

Definition chars (s : string) : list ascii := list_ascii_of_string s.
Definition text (l : list ascii) : string := string_of_list_ascii l.

(** The characters [str.strip()] and [int()] treat as blank. *)
Definition is_space (c : ascii) : bool :=
  match nat_of_ascii c with
  | 9%nat | 10%nat | 11%nat | 12%nat | 13%nat | 32%nat => true
  | _ => false
  end.

Definition is_digit (c : ascii) : bool :=
  let n := nat_of_ascii c in (48 <=? n)%nat && (n <=? 57)%nat.

Fixpoint lstrip (l : list ascii) : list ascii :=
  match l with
  | c :: l' => if is_space c then lstrip l' else l
  | [] => []
  end.

(** [s.strip()] *)
Definition strip (l : list ascii) : list ascii :=
  rev (lstrip (rev (lstrip l))).

(** [s.replace(old, "")] for a one-character [old]. *)
Fixpoint remove_char (old : ascii) (s : string) : string :=
  match s with
  | EmptyString => EmptyString
  | String c s' =>
      if Ascii.eqb c old then remove_char old s'
      else String c (remove_char old s')
  end.

(** [s.split(sep)] for a one-character [sep]: the pieces between the
    separators, empty pieces included; never an empty list. *)
Fixpoint split (sep : ascii) (s : string) : list string :=
  match s with
  | EmptyString => [EmptyString]
  | String c s' =>
      if Ascii.eqb c sep then EmptyString :: split sep s'
      else match split sep s' with
           | piece :: pieces => String c piece :: pieces
           | [] => [String c EmptyString]
           end
  end.

(** [sep.join(pieces)] *)
Fixpoint join (sep : string) (pieces : list string) : string :=
  match pieces with
  | [] => ""
  | [p] => p
  | p :: ps => p +:+ sep +:+ join sep ps
  end.

(** ** Integers as text: [str(n)] and [int(s)] *)

Definition str_of_N (n : N) : string :=
  NilEmpty.string_of_uint (N.to_uint n).

Definition str_of_Z (n : Z) : string :=
  if n <? 0 then String "-" (str_of_N (Z.abs_N n)) else str_of_N (Z.abs_N n).

(** A non-empty run of decimal digits, read as a number. *)
Definition N_of_digits (l : list ascii) : option N :=
  match l with
  | [] => None
  | _ => if forallb is_digit l
         then option_map N.of_uint (NilEmpty.uint_of_string (text l))
         else None
  end.

(** [int(s)] on a text: blanks around the literal are dropped, one sign is
    accepted, then only decimal digits.  [None] stands for the
    [ValueError] Python raises. *)
Definition int_of_string (s : string) : option Z :=
  match strip (chars s) with
  | "-"%char :: ds => option_map (fun n => - Z.of_N n) (N_of_digits ds)
  | "+"%char :: ds => option_map Z.of_N (N_of_digits ds)
  | ds => option_map Z.of_N (N_of_digits ds)
  end.

(** ["%+d" % n] *)
Definition str_signed (n : Z) : string :=
  if n <? 0 then String "-" (str_of_N (Z.abs_N n))
  else String "+" (str_of_N (Z.abs_N n)).

Definition zeros (k : nat) : string := text (repeat "0"%char k).

(** ["%0<width>d" % n] for a natural [n] *)
Definition zero_pad (width : nat) (n : N) : string :=
  let s := str_of_N n in
  zeros (width - String.length s) +:+ s.

(** ** [decimal.Decimal]: [str(d)] and [Decimal(s)] *)

Definition sign_text (sign : bool) : string := if sign then "-" else "".

(** The digits, point and exponent [Decimal.__str__] writes for a finite
    number, after its sign. *)
Definition finite_text (coeff : N) (exp : Z) : string :=
  let _int := str_of_N coeff in
  let len := Z.of_nat (String.length _int) in
  let leftdigits := exp + len in
  let dotplace :=
    if (exp <=? 0) && (-6 <? leftdigits) then leftdigits else 1 in
  let '(intpart, fracpart) :=
    if dotplace <=? 0 then
      ("0", "." +:+ zeros (Z.to_nat (- dotplace)) +:+ _int)
    else if len <=? dotplace then
      (_int +:+ zeros (Z.to_nat (dotplace - len)), "")
    else
      (text (take (Z.to_nat dotplace) (chars _int)),
       "." +:+ text (drop (Z.to_nat dotplace) (chars _int))) in
  let exp_text :=
    if leftdigits =? dotplace then ""
    else "E" +:+ str_signed (leftdigits - dotplace) in
  intpart +:+ fracpart +:+ exp_text.

(** [Decimal.__str__]: the scientific string of the number. *)
Definition str_of_decimal (d : decimal) : string :=
  match d with
  | DecInf sign => sign_text sign +:+ "Infinity"
  | DecNaN sign signaling diag =>
      sign_text sign +:+ (if signaling then "sNaN" else "NaN") +:+
      (if (diag =? 0)%N then "" else str_of_N diag)
  | DecFinite sign coeff exp => sign_text sign +:+ finite_text coeff exp
  end.

(** The longest run of digits at the front of a text, and what follows. *)
Fixpoint span_digits (l : list ascii) : list ascii * list ascii :=
  match l with
  | c :: l' =>
      if is_digit c then
        let '(ds, rest) := span_digits l' in (c :: ds, rest)
      else ([], l)
  | [] => ([], [])
  end.

Definition lower (c : ascii) : ascii :=
  let n := nat_of_ascii c in
  if (65 <=? n)%nat && (n <=? 90)%nat then ascii_of_nat (n + 32) else c.

Definition lower_text (l : list ascii) : list ascii := map lower l.

(** The number of a possibly empty run of digits ([int(s or '0')]). *)
Definition N_of_digits0 (ds : list ascii) : N :=
  match ds with
  | [] => 0%N
  | _ => default 0%N (N_of_digits ds)
  end.

(** The exponent part of a numeric string: nothing, or [E], an optional
    sign and at least one digit, up to the end of the text. *)
Definition parse_exponent (l : list ascii) : option Z :=
  match l with
  | [] => Some 0
  | c :: l' =>
      if Ascii.eqb (lower c) "e" then
        match l' with
        | "-"%char :: ds => option_map (fun n => - Z.of_N n) (N_of_digits ds)
        | "+"%char :: ds => option_map Z.of_N (N_of_digits ds)
        | ds => option_map Z.of_N (N_of_digits ds)
        end
      else None
  end.

(** The finite alternative of the parser: digits, an optional point and
    fraction digits (one digit at least in all), an optional exponent. *)
Definition parse_finite (sign : bool) (l : list ascii) : option decimal :=
  let '(intpart, rest) := span_digits l in
  let '(fracpart, rest') :=
    match rest with
    | "."%char :: r => span_digits r
    | _ => ([], rest)
    end in
  match (intpart ++ fracpart)%list with
  | [] => None
  | ds =>
      match parse_exponent rest' with
      | Some e =>
          Some (DecFinite sign (N_of_digits0 ds) (e - Z.of_nat (length fracpart)))
      | None => None
      end
  end.

(** The special alternatives: [Inf], [Infinity], [NaN] and [sNaN] with
    diagnostic digits, in any letter case. *)
Definition parse_special (sign : bool) (l : list ascii) : option decimal :=
  let low := lower_text l in
  if bool_decide (low = chars "inf") || bool_decide (low = chars "infinity")
  then Some (DecInf sign)
  else
    match low with
    | "n"%char :: "a"%char :: "n"%char :: ds =>
        if forallb is_digit ds then Some (DecNaN sign false (N_of_digits0 ds))
        else None
    | "s"%char :: "n"%char :: "a"%char :: "n"%char :: ds =>
        if forallb is_digit ds then Some (DecNaN sign true (N_of_digits0 ds))
        else None
    | _ => None
    end.

(** The optional sign at the front of a numeric string. *)
Definition split_sign (l : list ascii) : bool * list ascii :=
  match l with
  | "-"%char :: b => (true, b)
  | "+"%char :: b => (false, b)
  | b => (false, b)
  end.

(** [Decimal(s)] on a text; [None] stands for [InvalidOperation]. *)
Definition decimal_of_string (s : string) : option decimal :=
  let '(sign, body) := split_sign (strip (chars s)) in
  match parse_finite sign body with
  | Some d => Some d
  | None => parse_special sign body
  end.

(** ** Dates: validity, [strftime] and [strptime] *)

Definition is_leap (y : Z) : bool :=
  ((y mod 4 =? 0) && negb (y mod 100 =? 0)) || (y mod 400 =? 0).

Definition days_in_month (y m : Z) : Z :=
  if (m =? 2) then (if is_leap y then 29 else 28)
  else if (m =? 4) || (m =? 6) || (m =? 9) || (m =? 11) then 30
  else 31.

(** The dates [datetime.date(y, m, d)] accepts. *)
Definition valid_date (d : date) : bool :=
  (1 <=? year d) && (year d <=? 9999) &&
  (1 <=? month d) && (month d <=? 12) &&
  (1 <=? day d) && (day d <=? days_in_month (year d) (month d)).

Definition valid_datetime (t : datetime) : bool :=
  valid_date (dt_date t) &&
  (0 <=? hour t) && (hour t <=? 23) &&
  (0 <=? minute t) && (minute t <=? 59) &&
  (0 <=? second t) && (second t <=? 59) &&
  (0 <=? microsecond t) && (microsecond t <=? 999999).

(** [datetime.combine(d, time())]: a date at midnight. *)
Definition midnight (d : date) : datetime := mkDateTime d 0 0 0 0.

(** The directives of a format the model covers: [%Y %m %d %H %M %S]. *)
Inductive directive :=
| DirYear | DirMonth | DirDay | DirHour | DirMinute | DirSecond.

#[global] Instance directive_eq_dec : EqDecision directive.
Proof. solve_decision. Defined.

Inductive fmt_item :=
| FDir (d : directive)
| FLit (c : ascii).

Definition directive_of_char (c : ascii) : option directive :=
  if Ascii.eqb c "Y" then Some DirYear
  else if Ascii.eqb c "m" then Some DirMonth
  else if Ascii.eqb c "d" then Some DirDay
  else if Ascii.eqb c "H" then Some DirHour
  else if Ascii.eqb c "M" then Some DirMinute
  else if Ascii.eqb c "S" then Some DirSecond
  else None.

(** A format read left to right: [%%] is a literal percent sign, [%] and a
    letter of the table a directive.  A format with another directive, or
    ending in a lone [%], is not covered: [strptime] raises [ValueError] for
    an unknown directive, and the model answers the same for every format it
    does not cover, in [strftime] too. *)
Fixpoint parse_format (l : list ascii) : option (list fmt_item) :=
  match l with
  | [] => Some []
  | "%"%char :: l' =>
      match l' with
      | [] => None
      | c :: l'' =>
          let item :=
            if Ascii.eqb c "%" then Some (FLit "%")
            else option_map FDir (directive_of_char c) in
          match item, parse_format l'' with
          | Some i, Some items => Some (i :: items)
          | _, _ => None
          end
      end
  | c :: l' => option_map (cons (FLit c)) (parse_format l')
  end.

Definition field (d : directive) (t : datetime) : Z :=
  match d with
  | DirYear => year (dt_date t)
  | DirMonth => month (dt_date t)
  | DirDay => day (dt_date t)
  | DirHour => hour t
  | DirMinute => minute t
  | DirSecond => second t
  end.

Definition field_width (d : directive) : nat :=
  match d with DirYear => 4%nat | _ => 2%nat end.

Fixpoint format_items (items : list fmt_item) (t : datetime) : string :=
  match items with
  | [] => ""
  | FDir d :: items' =>
      zero_pad (field_width d) (Z.to_N (field d t)) +:+ format_items items' t
  | FLit c :: items' => String c (format_items items' t)
  end.

(** [datetime_safe.new_date(d).strftime(format)]: every year is written,
    with four digits. *)
Definition safe_strftime (t : datetime) (format : string) : outcome string :=
  match parse_format (chars format) with
  | Some items => Return (format_items items t)
  | None => Raise (ValueError "format outside the model")
  end.

(** [d.strftime(format)] of the interpreter the module runs on (it uses the
    [print] statement): a year before 1900 is refused with [ValueError]. *)
Definition strftime (t : datetime) (format : string) : outcome string :=
  if year (dt_date t) <? 1900
  then Raise (ValueError "the datetime strftime() methods require year >= 1900")
  else safe_strftime t format.

(** The regular expression [strptime] builds from a format: a group per
    directive, a literal per other character, and [\s+] for every run of
    blanks of the format. *)
Inductive node :=
| NDir (d : directive)
| NLit (c : ascii)
| NBlank.

Fixpoint compile (items : list fmt_item) : list node :=
  match items with
  | [] => []
  | FDir d :: items' => NDir d :: compile items'
  | FLit c :: items' =>
      if is_space c then
        match compile items' with
        | NBlank :: nodes => NBlank :: nodes
        | nodes => NBlank :: nodes
        end
      else NLit c :: compile items'
  end.

Definition is_char (c : ascii) : ascii -> bool := fun x => Ascii.eqb x c.

Definition in_range (lo hi : ascii) : ascii -> bool := fun x =>
  (nat_of_ascii lo <=? nat_of_ascii x)%nat &&
  (nat_of_ascii x <=? nat_of_ascii hi)%nat.

(** The alternatives of a directive's group, in the order the expression
    tries them; each is a sequence of character classes. *)
Definition alternatives (d : directive) : list (list (ascii -> bool)) :=
  match d with
  | DirYear => [[is_digit; is_digit; is_digit; is_digit]]
  | DirMonth =>
      [[is_char "1"; in_range "0" "2"]; [is_char "0"; in_range "1" "9"];
       [in_range "1" "9"]]
  | DirDay =>
      [[is_char "3"; in_range "0" "1"]; [in_range "1" "2"; is_digit];
       [is_char "0"; in_range "1" "9"]; [in_range "1" "9"];
       [is_char " "; in_range "1" "9"]]
  | DirHour =>
      [[is_char "2"; in_range "0" "3"]; [in_range "0" "1"; is_digit];
       [is_digit]]
  | DirMinute => [[in_range "0" "5"; is_digit]; [is_digit]]
  | DirSecond =>
      [[is_char "6"; in_range "0" "1"]; [in_range "0" "5"; is_digit];
       [is_digit]]
  end.

(** One alternative against the front of the input: the text it takes and
    the rest. *)
Fixpoint match_classes (classes : list (ascii -> bool)) (input : list ascii)
  : option (list ascii * list ascii) :=
  match classes with
  | [] => Some ([], input)
  | p :: classes' =>
      match input with
      | c :: input' =>
          if p c then
            match match_classes classes' input' with
            | Some (taken, rest) => Some (c :: taken, rest)
            | None => None
            end
          else None
      | [] => None
      end
  end.

Definition found := list (directive * list ascii).

(** The first alternative, in order, after which the rest of the expression
    also matches. *)
Fixpoint first_alternative (d : directive)
    (k : list ascii -> option (found * list ascii))
    (alts : list (list (ascii -> bool))) (input : list ascii)
  : option (found * list ascii) :=
  match alts with
  | [] => None
  | classes :: alts' =>
      match match_classes classes input with
      | Some (taken, rest) =>
          match k rest with
          | Some (f, rest') => Some ((d, taken) :: f, rest')
          | None => first_alternative d k alts' input
          end
      | None => first_alternative d k alts' input
      end
  end.

(** [\s+]: one blank at least, as many as possible first. *)
Fixpoint blank_run (k : list ascii -> option (found * list ascii))
    (input : list ascii) : option (found * list ascii) :=
  match input with
  | c :: input' =>
      if is_space c then
        match blank_run k input' with
        | Some r => Some r
        | None => k input'
        end
      else None
  | [] => None
  end.

(** [format_regex.match(data_string)]: the groups found and the text left
    after the match. Literals compare without regard to letter case. *)
Fixpoint match_nodes (nodes : list node) (input : list ascii)
  : option (found * list ascii) :=
  match nodes with
  | [] => Some ([], input)
  | NLit c :: nodes' =>
      match input with
      | c' :: input' =>
          if Ascii.eqb (lower c) (lower c') then match_nodes nodes' input'
          else None
      | [] => None
      end
  | NBlank :: nodes' => blank_run (match_nodes nodes') input
  | NDir d :: nodes' =>
      first_alternative d (match_nodes nodes') (alternatives d) input
  end.

Fixpoint directives_of (nodes : list node) : list directive :=
  match nodes with
  | [] => []
  | NDir d :: nodes' => d :: directives_of nodes'
  | _ :: nodes' => directives_of nodes'
  end.

(** [int(found_dict[d])], or the default of the field. *)
Definition found_field (f : found) (d : directive) (dflt : Z) : Z :=
  match list_find (fun e => fst e = d) f with
  | Some (_, (_, txt)) => default dflt (int_of_string (text txt))
  | None => dflt
  end.

(** [datetime.strptime(data, format)] *)
Definition strptime (data format : string) : outcome datetime :=
  match parse_format (chars format) with
  | None => Raise (ValueError "bad directive in format")
  | Some items =>
      let nodes := compile items in
      if negb (bool_decide (NoDup (directives_of nodes)))
      then Raise (ReError "redefinition of group name")
      else
        match match_nodes nodes (chars data) with
        | None => Raise (ValueError "time data does not match format")
        | Some (f, rest) =>
            match rest with
            | _ :: _ => Raise (ValueError "unconverted data remains")
            | [] =>
                let t := mkDateTime
                           (mkDate (found_field f DirYear 1900)
                                   (found_field f DirMonth 1)
                                   (found_field f DirDay 1))
                           (found_field f DirHour 0)
                           (found_field f DirMinute 0)
                           (found_field f DirSecond 0)
                           0 in
                if valid_datetime t then Return t
                else Raise (ValueError "value out of range")
            end
        end
  end.

(** [str(d)] of a date and of a datetime ([isoformat] with a space). *)
Definition str_of_date (d : date) : string :=
  format_items [FDir DirYear; FLit "-"; FDir DirMonth; FLit "-"; FDir DirDay]
    (midnight d).

Definition str_of_datetime (t : datetime) : string :=
  format_items [FDir DirYear; FLit "-"; FDir DirMonth; FLit "-"; FDir DirDay;
                FLit " "; FDir DirHour; FLit ":"; FDir DirMinute; FLit ":";
                FDir DirSecond] t +:+
  (if microsecond t =? 0 then ""
   else "." +:+ zero_pad 6 (Z.to_N (microsecond t))).

(** [bool(v)]: the test of [if v] and [not v]. *)
Definition truthy (v : val) : bool :=
  match v with
  | VNone => false
  | VStr s => negb (String.eqb s "")
  | VInt n => negb (n =? 0)
  | VBool b => b
  | VDecimal (DecFinite _ c _) => negb (c =? 0)%N
  | VDecimal _ => true
  | VDate _ | VDateTime _ | VObj _ => true
  end.

(** ** Effects: the process-wide cache, storage calls and standard output *)

Inductive event :=
| CacheGet (key : string)
| CacheSet (key : string) (v : val)
| StorageGetPk (pk : string)
| StorageGetTitle (title : string)
| StorageFilterPkIn (ids : list string)
| Stdout (line : string).

Definition is_storage_query (ev : event) : bool :=
  match ev with
  | StorageGetPk _ | StorageGetTitle _ | StorageFilterPkIn _ => true
  | _ => false
  end.

Definition is_cache_write (ev : event) : bool :=
  match ev with CacheSet _ _ => true | _ => false end.

(** The state a widget call runs in: the entries of [django.core.cache.cache]
    and the calls made so far, oldest first. *)
Record world := mkWorld {
  w_cache : gmap string val;
  w_trace : list event
}.

Definition M (A : Type) : Type := world -> outcome A * world.

#[global] Instance M_ret : MRet M := fun A a w => (Return a, w).

#[global] Instance M_bind : MBind M := fun A B f m w =>
  match m w with
  | (Return a, w') => f a w'
  | (Raise e, w') => (Raise e, w')
  end.

Definition raise {A} (e : exn) : M A := fun w => (Raise e, w).

Definition emit (ev : event) : M unit := fun w =>
  (Return tt, mkWorld (w_cache w) (w_trace w ++ [ev])%list).

Definition lift {A} (o : outcome A) : M A := fun w => (o, w).

(** [try: body  except <handled>: handler]. [handler e] is [None] for an
    exception no [except] clause of the statement names; an exception raised
    by a handler is not offered to the other clauses of the same [try]. *)
Definition try_except {A} (body : M A) (handler : exn -> option (M A)) : M A :=
  fun w =>
    match body w with
    | (Return a, w') => (Return a, w')
    | (Raise e, w') =>
        match handler e with
        | Some h => h w'
        | None => (Raise e, w')
        end
    end.

(** [print a, b] *)
Definition print (line : string) : M unit := emit (Stdout line).

(** [django.core.cache.cache]: [get] answers [None] for a key it does not
    hold, [set] stores the value under the key. *)
Module cache.

(** What [get] answers in a state. *)
Definition answer (w : world) (key : string) : val :=
  default VNone (w_cache w !! key).

Definition get (key : string) : M val := fun w =>
  (Return (answer w key),
   mkWorld (w_cache w) (w_trace w ++ [CacheGet key])%list).

Definition set (key : string) (v : val) : M unit := fun w =>
  (Return tt,
   mkWorld (<[key := v]> (w_cache w)) (w_trace w ++ [CacheSet key v])%list).

End cache.

(** ** The model a reference widget is bound to *)

Inductive key_field := IntegerKey | TextKey.

(** [self.model]: the two names of [_meta], the kind of its primary key,
    the names of its fields, and the rows of its table in storage order. *)
Record Model := mkModel {
  app_label : string;
  module_name : string;
  pk_field : key_field;
  fields : list string;
  table : list instance
}.

(** The conversion the primary-key field applies to a lookup value: an
    integer key goes through [int], which raises [ValueError] on a text that
    is no integer literal; a text key is taken as it is. *)
Definition to_python (m : Model) (s : string) : outcome pk_value :=
  match pk_field m with
  | IntegerKey =>
      match int_of_string s with
      | Some n => Return (PkInt n)
      | None => Raise (ValueError "invalid literal for int() with base 10")
      end
  | TextKey => Return (PkStr s)
  end.

Fixpoint to_python_all (m : Model) (ids : list string) : outcome (list pk_value) :=
  match ids with
  | [] => Return []
  | s :: ids' =>
      match to_python m s with
      | Raise e => Raise e
      | Return k =>
          match to_python_all m ids' with
          | Raise e => Raise e
          | Return ks => Return (k :: ks)
          end
      end
  end.

(** [Manager.get]: the single matching row, [DoesNotExist] for none,
    [MultipleObjectsReturned] for several. *)
Definition get_single (matches : list instance) : outcome instance :=
  match matches with
  | [] => Raise (DoesNotExist "matching query does not exist.")
  | [o] => Return o
  | _ :: _ :: _ => Raise (MultipleObjectsReturned "get() returned more than one row")
  end.

(** [self.model._meta.get_field(name)] *)
Definition get_field (m : Model) (name : string) : M unit :=
  if bool_decide (name ∈ fields m) then mret tt
  else raise (FieldDoesNotExist name).

(** [self.model.objects] *)
Module objects.

(** The row [get(pk=s)] answers. *)
Definition find_pk (m : Model) (s : string) : outcome instance :=
  match to_python m s with
  | Raise e => Raise e
  | Return k => get_single (filter (λ o, inst_pk o = k) (table m))
  end.

(** The row [get(title=s)] answers. *)
Definition find_title (m : Model) (s : string) : outcome instance :=
  get_single (filter (λ o, inst_title o = s) (table m)).

(** The rows [filter(pk__in=ids)] selects, in table order. *)
Definition select_pk_in (m : Model) (ids : list string)
  : outcome (list instance) :=
  match to_python_all m ids with
  | Raise e => Raise e
  | Return ks => Return (filter (λ o, inst_pk o ∈ ks) (table m))
  end.

(** [get(pk=s)] *)
Definition get_pk (m : Model) (s : string) : M instance :=
  emit (StorageGetPk s);; lift (find_pk m s).

(** [get(title=s)] *)
Definition get_title (m : Model) (s : string) : M instance :=
  emit (StorageGetTitle s);; lift (find_title m s).

(** [none()] *)
Definition none (m : Model) : M (list instance) := mret [].

(** [filter(pk__in=ids)], evaluated. *)
Definition filter_pk_in (m : Model) (ids : list string) : M (list instance) :=
  emit (StorageFilterPkIn ids);; lift (select_pk_in m ids).

End objects.

(** ** The widgets *)

(** [force_text(value)]: the text of a value ([unicode(value)]). *)
Definition force_text (value : val) : string :=
  match value with
  | VNone => "None"
  | VStr s => s
  | VInt n => str_of_Z n
  | VBool b => if b then "True" else "False"
  | VDecimal d => str_of_decimal d
  | VDate d => str_of_date d
  | VDateTime t => str_of_datetime t
  | VObj o => inst_text o
  end.

(** [int(value)] *)
Definition py_int (value : val) : outcome Z :=
  match value with
  | VStr s =>
      match int_of_string s with
      | Some n => Return n
      | None => Raise (ValueError "invalid literal for int() with base 10")
      end
  | VInt n => Return n
  | VBool b => Return (if b then 1 else 0)
  | VDecimal (DecFinite sign c e) =>
      let magnitude :=
        if 0 <=? e then Z.of_N c * 10 ^ e else Z.of_N c / 10 ^ (- e) in
      Return (if sign then - magnitude else magnitude)
  | VDecimal (DecInf _) => Raise (OverflowError "cannot convert Infinity to integer")
  | VDecimal (DecNaN _ _ _) => Raise (ValueError "cannot convert NaN to integer")
  | _ => Raise (TypeError "int() argument must be a string or a number")
  end.

(** [Decimal(value)] *)
Definition py_Decimal (value : val) : outcome decimal :=
  match value with
  | VStr s =>
      match decimal_of_string s with
      | Some d => Return d
      | None => Raise (InvalidOperation "Invalid literal for Decimal")
      end
  | VInt n => Return (DecFinite (n <? 0) (Z.abs_N n) 0)
  | VBool b => Return (DecFinite false (if b then 1%N else 0%N) 0)
  | VDecimal d => Return d
  | _ => Raise (TypeError "Cannot convert to Decimal")
  end.

(** [datetime.strptime(value, format)] on a value. *)
Definition py_strptime (value : val) (format : string) : outcome datetime :=
  match value with
  | VStr s => strptime s format
  | _ => Raise (TypeError "strptime() argument 1 must be string")
  end.

(** [value.strftime(format)] *)
Definition py_strftime (value : val) (format : string) : outcome string :=
  match value with
  | VDate d => strftime (midnight d) format
  | VDateTime t => strftime t format
  | _ => Raise (AttributeError "object has no attribute 'strftime'")
  end.

(** [datetime_safe.new_date(value)] *)
Definition new_date (value : val) : outcome date :=
  match value with
  | VDate d => Return d
  | VDateTime t => Return (dt_date t)
  | _ => Raise (AttributeError "object has no attribute 'year'")
  end.

(** The number a numeric value stands for, as a decimal. *)
Definition as_number (v : val) : option decimal :=
  match v with
  | VInt n => Some (DecFinite (n <? 0) (Z.abs_N n) 0)
  | VBool b => Some (DecFinite false (if b then 1%N else 0%N) 0)
  | VDecimal d => Some d
  | _ => None
  end.

Definition scaled (sign : bool) (c : N) (e low : Z) : Z :=
  (if sign then -1 else 1) * Z.of_N c * 10 ^ (e - low).

(** [d1 == d2] on decimals: equal numbers; a NaN equals nothing. *)
Definition decimal_eqb (d1 d2 : decimal) : bool :=
  match d1, d2 with
  | DecFinite s1 c1 e1, DecFinite s2 c2 e2 =>
      let low := Z.min e1 e2 in
      scaled s1 c1 e1 low =? scaled s2 c2 e2 low
  | DecInf s1, DecInf s2 => Bool.eqb s1 s2
  | _, _ => false
  end.

Definition is_signaling (d : decimal) : bool :=
  match d with DecNaN _ true _ => true | _ => false end.

(** [a == b].  Between two numbers a signaling NaN on either side raises
    [InvalidOperation], as [Decimal.__eq__] does from Python 2.7 on; a quiet
    NaN equals nothing.  A number and a value of another kind are unequal. *)
Definition py_eq (a b : val) : outcome bool :=
  match as_number a, as_number b with
  | Some d1, Some d2 =>
      if is_signaling d1 || is_signaling d2
      then Raise (InvalidOperation "comparison involving sNaN")
      else Return (decimal_eqb d1 d2)
  | Some _, None | None, Some _ => Return false
  | None, None =>
      Return (match a, b with
              | VObj o1, VObj o2 => bool_decide (inst_pk o1 = inst_pk o2)
              | _, _ => bool_decide (a = b)
              end)
  end.

(** [value in values]: the items are compared in order; the first equal one
    ends the search, and so does a comparison that raises. *)
Fixpoint py_in (value : val) (values : list val) : outcome bool :=
  match values with
  | [] => Return false
  | item :: rest =>
      match py_eq value item with
      | Raise e => Raise e
      | Return true => Return true
      | Return false => py_in value rest
      end
  end.

Module Widget.

Definition clean (value : val) : val := value.

Definition render (value : val) : string := force_text value.

End Widget.

Module IntegerWidget.

Definition clean (value : val) : outcome val :=
  if negb (truthy value) then Return VNone
  else match py_int value with
       | Return n => Return (VInt n)
       | Raise e => Raise e
       end.

Definition render := Widget.render.

End IntegerWidget.

Module DecimalWidget.

Definition clean (value : val) : outcome val :=
  if negb (truthy value) then Return VNone
  else match py_Decimal value with
       | Return d => Return (VDecimal d)
       | Raise e => Raise e
       end.

Definition render := Widget.render.

End DecimalWidget.

Module CharWidget.

Definition clean := Widget.clean.

Definition render (value : val) : string := force_text value.

End CharWidget.

Module BooleanWidget.

Definition TRUE_VALUES : list val := [VStr "1"; VInt 1].
Definition FALSE_VALUE : val := VStr "0".

Definition render (value : val) : val :=
  if truthy value then default VNone (TRUE_VALUES !! 0%nat) else FALSE_VALUE.

Definition clean (value : val) : outcome val :=
  match py_in value TRUE_VALUES with
  | Raise e => Raise e
  | Return true => Return (VBool true)
  | Return false => Return (VBool false)
  end.

End BooleanWidget.

Module DateWidget.

Record t := mk { format : string }.

Definition init (format : option string) : t :=
  match format with
  | None => mk "%Y-%m-%d"
  | Some f => mk f
  end.

Definition clean (self : t) (value : val) : outcome val :=
  if negb (truthy value) then Return VNone
  else match py_strptime value (format self) with
       | Return d => Return (VDate (dt_date d))
       | Raise e => Raise e
       end.

Definition render (self : t) (value : val) : outcome string :=
  match py_strftime value (format self) with
  | Return s => Return s
  | Raise _ =>
      match new_date value with
      | Return d => safe_strftime (midnight d) (format self)
      | Raise e => Raise e
      end
  end.

End DateWidget.

Module DateTimeWidget.

Record t := mk { format : string }.

Definition init (format : option string) : t :=
  match format with
  | None => mk "%Y-%m-%d %H:%M:%S"
  | Some f => mk f
  end.

Definition clean (self : t) (value : val) : outcome val :=
  if negb (truthy value) then Return VNone
  else match py_strptime value (format self) with
       | Return d => Return (VDateTime d)
       | Raise e => Raise e
       end.

Definition render (self : t) (value : val) : outcome string :=
  py_strftime value (format self).

End DateTimeWidget.

Definition value_of_pk (k : pk_value) : val :=
  match k with
  | PkInt n => VInt n
  | PkStr s => VStr s
  end.

(** [str(obj.pk)] *)
Definition str_of_pk (k : pk_value) : string :=
  match k with
  | PkInt n => str_of_Z n
  | PkStr s => s
  end.

Module ForeignKeyWidget.

(** ['%s_%s_%s' % (app_label, module_name, pk.replace(" ", ""))] *)
Definition cache_key (self : Model) (pk : string) : string :=
  app_label self +:+ "_" +:+ module_name self +:+ "_" +:+ remove_char " " pk.

(** [pk.replace(" ", "")] needs a [pk] with a fitting [replace]: a text.  A
    date has a [replace] of its own, which rejects the arguments; no other
    value has the attribute. *)
Definition replace_receiver (pk : val) : outcome string :=
  match pk with
  | VStr s => Return s
  | VDate _ | VDateTime _ => Raise (TypeError "an integer is required")
  | _ => Raise (AttributeError "object has no attribute 'replace'")
  end.

(** The [try] statement of [clean]: [obj] holds what the cache answered
    and keeps it on every path that does not assign it. *)
Definition lookup (self : Model) (pk : string) (obj : val) : M val :=
  try_except
    (o ← objects.get_pk self pk; mret (VObj o))
    (fun e =>
       if is_ValueError e then
         Some (try_except
                 (get_field self "title";;
                  o ← objects.get_title self pk;
                  mret (VObj o))
                 (fun e' =>
                    if is_FieldDoesNotExist e' then Some (mret obj)
                    else None))
       else if is_ObjectDoesNotExist e then
         Some (print ("DNE " +:+ pk);; mret obj)
       else None).

Definition clean (self : Model) (value : val) : M val :=
  let pk := Widget.clean value in
  if truthy pk then
    s ← lift (replace_receiver pk);
    let cache_key := cache_key self s in
    obj ← cache.get cache_key;
    if truthy obj then mret obj
    else
      obj ← lookup self s obj;
      cache.set cache_key obj;;
      mret obj
  else mret VNone.

Definition render (value : val) : outcome val :=
  match value with
  | VNone => Return (VStr "")
  | VObj o => Return (value_of_pk (inst_pk o))
  | _ => Raise (AttributeError "object has no attribute 'pk'")
  end.

End ForeignKeyWidget.

Module ManyToManyWidget.

Definition value_split (value : val) : outcome (list string) :=
  match value with
  | VStr s => Return (split "," s)
  | _ => Raise (AttributeError "object has no attribute 'split'")
  end.

Definition clean (self : Model) (value : val) : M (list instance) :=
  if negb (truthy value) then objects.none self
  else
    ids ← lift (value_split value);
    objects.filter_pk_in self ids.

(** [value] is a related manager; [value.all()] lists its rows. *)
Definition render (value : list instance) : string :=
  let ids := map (fun obj => str_of_pk (inst_pk obj)) value in
  join "," ids.

End ManyToManyWidget.


(** ** Reading a trace *)

Definition queries_storage (evs : list event) : bool :=
  existsb is_storage_query evs.

Definition writes_cache (evs : list event) : bool :=
  existsb is_cache_write evs.

(** The events a call adds to the trace of the state it starts in. *)
Definition events_of {A} (call : M A) (w : world) : list event :=
  drop (length (w_trace w)) (w_trace (snd (call w))).

(** The state a call leaves, with events appended to it. *)
Definition logged (w : world) (evs : list event) : world :=
  mkWorld (w_cache w) (w_trace w ++ evs)%list.

Definition stored (w : world) (key : string) (v : val) (evs : list event)
  : world :=
  mkWorld (<[key := v]> (w_cache w)) (w_trace w ++ evs)%list.

(** ** Sample data *)

Definition books : instance := mkInstance (PkInt 1) "Books" "Books".
Definition widgets : instance := mkInstance (PkInt 42) "Widgets" "Widgets".
Definition toys : instance := mkInstance (PkInt 3) "Toys" "Toys".

(** A model with an integer key and a [title] field. *)
Definition category : Model :=
  mkModel "shop" "category" IntegerKey ["id"; "title"] [books; widgets; toys].

(** A model with a text key and no [title] field. *)
Definition country : Model :=
  mkModel "geo" "country" TextKey ["code"; "name"]
    [mkInstance (PkStr "42") "" "Atlantis"; mkInstance (PkStr "NZ") "" "New Zealand"].

Definition fresh : world := mkWorld ∅ [].

(** A state whose cache already holds the row of key 42. *)
Definition warm : world :=
  mkWorld {[ "shop_category_42" := VObj widgets ]} [].

(** ** Predicates the properties are stated with *)

(** A text with no blank character. *)
Definition no_blank (l : list ascii) : Prop := Forall (fun c => is_space c = false) l.

(** A number written with leading zeros has the given width and reads back
    as itself. *)
Definition padded_back (width : nat) (n : Z) : bool :=
  bool_decide (length (chars (zero_pad width (Z.to_N n))) = width) &&
  bool_decide (int_of_string (zero_pad width (Z.to_N n)) = Some n).

(** The range of a two-digit field of a valid datetime. *)
Definition field_low (d : directive) : Z :=
  match d with DirYear | DirMonth | DirDay => 1 | _ => 0 end.

Definition field_high (d : directive) : Z :=
  match d with
  | DirYear => 9999 | DirMonth => 12 | DirDay => 31
  | DirHour => 23 | DirMinute => 59 | DirSecond => 59
  end.

(** The group of a two-digit directive takes the two digits of a field and
    lets the rest of the expression go on. *)
Definition two_digit_step (d : directive) (n : Z) : Prop :=
  forall (nodes : list node) (rest : list ascii) (f : found) (r : list ascii),
    match_nodes nodes rest = Some (f, r) ->
    match_nodes (NDir d :: nodes) (chars (zero_pad 2 (Z.to_N n)) ++ rest)
    = Some ((d, chars (zero_pad 2 (Z.to_N n))) :: f, r).

(** A text that does not go on with a digit. *)
Definition stops_digits (rest : list ascii) : Prop :=
  match rest with
  | [] => True
  | c :: _ => is_digit c = false
  end.




(** A text without a comma. *)
Definition comma_free (s : string) : Prop :=
  Forall (fun c => c ≠ ","%char) (chars s).

(** * Properties of the reference widget *)

Ltac run_M :=
  unfold ForeignKeyWidget.clean, ForeignKeyWidget.lookup, try_except,
    objects.get_pk, objects.get_title, objects.filter_pk_in, objects.none,
    get_field, cache.get, cache.set, print, emit, lift, raise,
    mbind, M_bind, mret, M_ret, logged, stored, Widget.clean; simpl.

Lemma truthy_text (s : string) : s ≠ "" -> truthy (VStr s) = true.
Proof.
  intros Hs. simpl. destruct (String.eqb_spec s ""); [contradiction | reflexivity].
Qed.

Lemma truthy_instance (v : val) (o : instance) : v = VObj o -> truthy v = true.
Proof. intros ->. reflexivity. Qed.

Lemma get_single_raises (l : list instance) (e : exn) :
  get_single l = Raise e ->
  is_FieldDoesNotExist e = false /\ is_ValueError e = false.
Proof.
  destruct l as [|o [|o' l]]; simpl; intros H; inversion H; split; reflexivity.
Qed.

Section lookup.

Context (self : Model) (s : string) (obj : val) (w : world).

Lemma lookup_found (o : instance) :
  objects.find_pk self s = Return o ->
  ForeignKeyWidget.lookup self s obj w
  = (Return (VObj o), logged w [StorageGetPk s]).
Proof. intros H. run_M. rewrite H. reflexivity. Qed.

Lemma lookup_missing (msg : string) :
  objects.find_pk self s = Raise (DoesNotExist msg) ->
  ForeignKeyWidget.lookup self s obj w
  = (Return obj, logged w [StorageGetPk s; Stdout ("DNE " +:+ s)]).
Proof. intros H. run_M. rewrite H. simpl. rewrite <- app_assoc. reflexivity. Qed.

Lemma lookup_malformed_no_title (msg : string) :
  objects.find_pk self s = Raise (ValueError msg) ->
  "title" ∉ fields self ->
  ForeignKeyWidget.lookup self s obj w
  = (Return obj, logged w [StorageGetPk s]).
Proof.
  intros H Hf. run_M. rewrite H. simpl.
  rewrite bool_decide_eq_false_2 by assumption. reflexivity.
Qed.

Lemma lookup_malformed_title (msg : string) :
  objects.find_pk self s = Raise (ValueError msg) ->
  "title" ∈ fields self ->
  ForeignKeyWidget.lookup self s obj w
  = (match objects.find_title self s with
     | Return o => Return (VObj o)
     | Raise e => Raise e
     end, logged w [StorageGetPk s; StorageGetTitle s]).
Proof.
  intros H Hf. run_M. rewrite H. simpl.
  rewrite bool_decide_eq_true_2 by assumption. simpl.
  rewrite <- app_assoc. simpl.
  destruct (objects.find_title self s) as [o|e] eqn:Ht; [reflexivity|].
  apply get_single_raises in Ht as [-> _]. reflexivity.
Qed.

End lookup.

(** [clean] on a text that is not empty: the cache is asked first, and
    only a falsy answer leads to the lookup and the cache write. *)
Lemma clean_text (self : Model) (s : string) (w : world) :
  s ≠ "" ->
  let key := ForeignKeyWidget.cache_key self s in
  let obj := cache.answer w key in
  ForeignKeyWidget.clean self (VStr s) w
  = if truthy obj then (Return obj, logged w [CacheGet key])
    else
      match ForeignKeyWidget.lookup self s obj (logged w [CacheGet key]) with
      | (Return v, w') => (Return v, stored w' key v [CacheSet key v])
      | (Raise e, w') => (Raise e, w')
      end.
Proof.
  intros Hs key obj.
  unfold ForeignKeyWidget.clean, Widget.clean.
  rewrite (truthy_text s Hs).
  unfold mbind, M_bind, lift, cache.get, cache.set, mret, M_ret; simpl.
  fold key. fold obj. destruct (truthy obj); [reflexivity|].
  unfold logged.
  destruct (ForeignKeyWidget.lookup self s obj _) as [[v|e] w']; reflexivity.
Qed.

Lemma events_of_logged {A} (call : M A) (w : world) (r : outcome A)
    (evs : list event) :
  call w = (r, logged w evs) -> events_of call w = evs.
Proof.
  intros H. unfold events_of. rewrite H. simpl. apply drop_app_length.
Qed.

Lemma events_of_stored {A} (call : M A) (w : world) (r : outcome A)
    (key : string) (v : val) (evs : list event) :
  call w = (r, stored w key v evs) -> events_of call w = evs.
Proof.
  intros H. unfold events_of. rewrite H. simpl. apply drop_app_length.
Qed.

Lemma stored_logged (w : world) (key : string) (v : val)
    (evs evs' : list event) :
  stored (logged w evs) key v evs' = stored w key v (evs ++ evs').
Proof. unfold stored, logged. simpl. rewrite <- app_assoc. reflexivity. Qed.

Lemma logged_logged (w : world) (evs evs' : list event) :
  logged (logged w evs) evs' = logged w (evs ++ evs').
Proof. unfold logged. simpl. rewrite <- app_assoc. reflexivity. Qed.

Lemma answer_stored (w : world) (key : string) (v : val) (evs : list event) :
  cache.answer (stored w key v evs) key = v.
Proof. unfold cache.answer, stored. simpl. rewrite lookup_insert_eq. reflexivity. Qed.

Lemma answer_logged (w : world) (key : string) (evs : list event) :
  cache.answer (logged w evs) key = cache.answer w key.
Proof. reflexivity. Qed.

(** The fast path of [clean]. *)
Lemma clean_hit (self : Model) (s : string) (w : world) :
  let key := ForeignKeyWidget.cache_key self s in
  s ≠ "" -> truthy (cache.answer w key) = true ->
  ForeignKeyWidget.clean self (VStr s) w
  = (Return (cache.answer w key), logged w [CacheGet key]).
Proof.
  intros key Hs Ht. rewrite clean_text by assumption. fold key.
  rewrite Ht. reflexivity.
Qed.

(** The path of [clean] through the title lookup. *)
Lemma clean_by_title (self : Model) (s : string) (w : world) (msg : string) :
  let key := ForeignKeyWidget.cache_key self s in
  s ≠ "" ->
  truthy (cache.answer w key) = false ->
  objects.find_pk self s = Raise (ValueError msg) ->
  "title" ∈ fields self ->
  ForeignKeyWidget.clean self (VStr s) w
  = match objects.find_title self s with
    | Return o =>
        (Return (VObj o),
         stored w key (VObj o)
           [CacheGet key; StorageGetPk s; StorageGetTitle s;
            CacheSet key (VObj o)])
    | Raise e =>
        (Raise e, logged w [CacheGet key; StorageGetPk s; StorageGetTitle s])
    end.
Proof.
  intros key Hs Ht Hpk Hf.
  rewrite clean_text by assumption. fold key. rewrite Ht.
  rewrite (lookup_malformed_title _ _ _ _ msg Hpk Hf).
  destruct (objects.find_title self s) as [o|e];
    rewrite logged_logged, ?stored_logged; reflexivity.
Qed.

(** C5: when the cache holds a truthy entry under the computed key, [clean]
    returns that entry at once: the only event of the call is the cache
    read, so there is no storage query and no cache write and the cache is
    left as it was.  In particular a second [clean] of an identifier that a
    first call resolved to an entity returns the same entity from the cache
    alone. *)
Theorem clean_cache_hit (self : Model) (s : string) (w : world) :
  let key := ForeignKeyWidget.cache_key self s in
  (s ≠ "" -> truthy (cache.answer w key) = true ->
   ForeignKeyWidget.clean self (VStr s) w
   = (Return (cache.answer w key), logged w [CacheGet key])) /\
  (forall (o : instance) (w1 : world),
     ForeignKeyWidget.clean self (VStr s) w = (Return (VObj o), w1) ->
     ForeignKeyWidget.clean self (VStr s) w1
     = (Return (VObj o), logged w1 [CacheGet key]) /\
     queries_storage (events_of (ForeignKeyWidget.clean self (VStr s)) w1) = false /\
     writes_cache (events_of (ForeignKeyWidget.clean self (VStr s)) w1) = false).
Proof.
  intros key.
  pose proof (clean_hit self s) as Hhit. cbv zeta in Hhit. fold key in Hhit.
  split; [apply Hhit|].
  intros o w1 H.
  assert (Hs : s ≠ "").
  { intros ->. vm_compute in H. discriminate H. }
  assert (Hans : cache.answer w1 key = VObj o).
  { rewrite clean_text in H by assumption. fold key in H.
    destruct (truthy (cache.answer w key)) eqn:Ht.
    - inversion H; subst. rewrite answer_logged. congruence.
    - destruct (ForeignKeyWidget.lookup self s _ _) as [[v|e] w'];
        inversion H; subst. apply answer_stored. }
  assert (Hcall : ForeignKeyWidget.clean self (VStr s) w1
                  = (Return (VObj o), logged w1 [CacheGet key])).
  { rewrite Hhit by (try assumption; rewrite Hans; reflexivity).
    rewrite Hans. reflexivity. }
  split; [exact Hcall|].
  rewrite (events_of_logged _ _ _ _ Hcall). split; reflexivity.
Qed.

Lemma clean_cache_hit_witness :
  ForeignKeyWidget.clean category (VStr "42") warm
  = (Return (VObj widgets), logged warm [CacheGet "shop_category_42"]) /\
  queries_storage
    (events_of (ForeignKeyWidget.clean category (VStr "42"))
       (snd (ForeignKeyWidget.clean category (VStr "42") fresh))) = false.
Proof.
  split.
  - apply (proj1 (clean_cache_hit category "42" warm)).
    + discriminate.
    + vm_compute. reflexivity.
  - apply (proj2 (clean_cache_hit category "42" fresh) widgets).
    vm_compute. reflexivity.
Defined.

(** What the three answers of the primary lookup mean for the table. *)
Lemma find_pk_missing (self : Model) (s : string) (msg : string) :
  objects.find_pk self s = Raise (DoesNotExist msg) ->
  exists k, to_python self s = Return k /\
            forall o, o ∈ table self -> inst_pk o ≠ k.
Proof.
  unfold objects.find_pk.
  destruct (to_python self s) as [k|e] eqn:Hk.
  - intros H. exists k. split; [reflexivity|].
    intros o Ho Heq.
    assert (Hin : o ∈ filter (λ o, inst_pk o = k) (table self))
      by (apply list_elem_of_filter; auto).
    destruct (filter _ (table self)) as [|o1 [|o2 l]]; simpl in H;
      [inversion Hin | discriminate H | discriminate H].
  - intros H. inversion H; subst.
    unfold to_python in Hk. destruct (pk_field self); [|discriminate Hk].
    destruct (int_of_string s); discriminate Hk.
Qed.

Lemma find_pk_malformed (self : Model) (s : string) (msg : string) :
  objects.find_pk self s = Raise (ValueError msg) ->
  pk_field self = IntegerKey /\ int_of_string s = None.
Proof.
  unfold objects.find_pk, to_python.
  destruct (pk_field self).
  - destruct (int_of_string s); [|auto].
    intros H. apply get_single_raises in H as [_ H]. discriminate H.
  - intros H. apply get_single_raises in H as [_ H]. discriminate H.
Qed.

(** C1, amended: when the cache holds nothing (or [None]) under the key and
    the primary lookup reports that no row has the key, [clean] returns
    [None] without an error and writes [None] under the key; a second
    [clean] of the same identifier in the state the first one left reads the
    cache, gets [None], and asks storage again with the same lookup: the
    stored [None] does not spare the query. *)
Theorem clean_not_found_queries_again (self : Model) (s : string) (w : world) :
  let key := ForeignKeyWidget.cache_key self s in
  let evs := [CacheGet key; StorageGetPk s; Stdout ("DNE " +:+ s);
              CacheSet key VNone] in
  s ≠ "" ->
  cache.answer w key = VNone ->
  (exists msg, objects.find_pk self s = Raise (DoesNotExist msg)) ->
  ForeignKeyWidget.clean self (VStr s) w
  = (Return VNone, stored w key VNone evs) /\
  w_cache (stored w key VNone evs) !! key = Some VNone /\
  ForeignKeyWidget.clean self (VStr s) (stored w key VNone evs)
  = (Return VNone, stored (stored w key VNone evs) key VNone evs) /\
  queries_storage
    (events_of (ForeignKeyWidget.clean self (VStr s)) (stored w key VNone evs))
  = true.
Proof.
  intros key evs Hs Hans [msg Hpk].
  assert (Hcall : forall w0, cache.answer w0 key = VNone ->
            ForeignKeyWidget.clean self (VStr s) w0
            = (Return VNone, stored w0 key VNone evs)).
  { intros w0 H0. rewrite clean_text by assumption. fold key. rewrite H0. simpl.
    rewrite (lookup_missing _ _ _ _ msg Hpk).
    rewrite logged_logged, stored_logged. reflexivity. }
  assert (H1 : cache.answer (stored w key VNone evs) key = VNone)
    by apply answer_stored.
  split; [apply Hcall, Hans|].
  split; [apply lookup_insert_eq|].
  split; [apply Hcall, H1|].
  rewrite (events_of_stored _ _ _ _ _ _ (Hcall _ H1)). reflexivity.
Qed.

Lemma clean_not_found_queries_again_witness :
  ForeignKeyWidget.clean category (VStr "99") fresh
  = (Return VNone,
     stored fresh "shop_category_99" VNone
       [CacheGet "shop_category_99"; StorageGetPk "99"; Stdout "DNE 99";
        CacheSet "shop_category_99" VNone]).
Proof.
  apply (clean_not_found_queries_again category "99" fresh).
  - discriminate.
  - reflexivity.
  - eexists. vm_compute. reflexivity.
Defined.

(** C1 as stated fails: the identifier ["99"] matches no row of [category]
    by key or by title and the first [clean] returns [None] and stores it,
    yet the second [clean] performs a storage query. *)
Lemma negative_caching_counterexample :
  let first := ForeignKeyWidget.clean category (VStr "99") fresh in
  (forall o, o ∈ table category -> inst_pk o ≠ PkInt 99 /\ inst_title o ≠ "99") /\
  fst first = Return VNone /\
  w_cache (snd first) !! "shop_category_99" = Some VNone /\
  events_of (ForeignKeyWidget.clean category (VStr "99")) (snd first)
  = [CacheGet "shop_category_99"; StorageGetPk "99"; Stdout "DNE 99";
     CacheSet "shop_category_99" VNone] /\
  queries_storage
    (events_of (ForeignKeyWidget.clean category (VStr "99")) (snd first))
  = true.
Proof.
  split.
  { intros o Ho. simpl in Ho.
    repeat (apply elem_of_cons in Ho as [->|Ho]; [split; discriminate|]).
    inversion Ho. }
  split; [reflexivity|].
  split; [vm_compute; reflexivity|].
  split; vm_compute; reflexivity.
Qed.

(** C2, the failing input: the text ["Nope"] is no integer literal, so the
    primary lookup of [category] raises [ValueError]; the model has a
    [title] field and no row is titled ["Nope"]; the [DoesNotExist] of the
    title lookup leaves [clean] as an error, and nothing is written to the
    cache. *)
Theorem clean_title_not_found_raises :
  objects.find_title category "Nope"
  = Raise (DoesNotExist "matching query does not exist.") /\
  ForeignKeyWidget.clean category (VStr "Nope") fresh
  = (Raise (DoesNotExist "matching query does not exist."),
     logged fresh [CacheGet "shop_category_Nope"; StorageGetPk "Nope";
                   StorageGetTitle "Nope"]) /\
  ForeignKeyWidget.clean category (VStr "99") fresh
  = (Return VNone,
     stored fresh "shop_category_99" VNone
       [CacheGet "shop_category_99"; StorageGetPk "99"; Stdout "DNE 99";
        CacheSet "shop_category_99" VNone]).
Proof. repeat split; vm_compute; reflexivity. Qed.

Lemma get_single_cases (l : list instance) (e : exn) :
  get_single l = Raise e ->
  (l = [] /\ exists msg, e = DoesNotExist msg) \/
  ((2 <= length l)%nat /\ exists msg, e = MultipleObjectsReturned msg).
Proof.
  destruct l as [|o [|o' l]]; simpl; intros H; inversion H; subst.
  - left. eauto.
  - right. split; [lia | eauto].
Qed.

Lemma find_pk_raises (self : Model) (s : string) (e : exn) :
  objects.find_pk self s = Raise e ->
  exists msg, e = ValueError msg \/ e = DoesNotExist msg \/
              e = MultipleObjectsReturned msg.
Proof.
  unfold objects.find_pk, to_python.
  destruct (pk_field self); [destruct (int_of_string s)|].
  2: { intros H. inversion H. eauto. }
  all: intros H; apply get_single_cases in H as [[_ [msg ->]]|[_ [msg ->]]]; eauto.
Qed.

(** Every path of the [try] statement starts with the primary lookup, made
    with the text it was given. *)
Lemma lookup_trace (self : Model) (s : string) (obj : val) (w : world) :
  exists r evs,
    ForeignKeyWidget.lookup self s obj w = (r, logged w (StorageGetPk s :: evs)).
Proof.
  destruct (objects.find_pk self s) as [o|e] eqn:Hpk.
  - eexists _, _. apply lookup_found. exact Hpk.
  - destruct (find_pk_raises _ _ _ Hpk) as [msg [->|[->| ->]]].
    + destruct (decide ("title" ∈ fields self)) as [Hf|Hf].
      * eexists _, _. apply (lookup_malformed_title _ _ _ _ msg Hpk Hf).
      * eexists _, _. apply (lookup_malformed_no_title _ _ _ _ msg Hpk Hf).
    + eexists _, _. apply (lookup_missing _ _ _ _ msg Hpk).
    + eexists _, _. run_M. rewrite Hpk. simpl. reflexivity.
Qed.

(** [pk.replace(" ", "")] keeps every character but the space, in order. *)
Lemma remove_char_filter (s : string) :
  remove_char " " s = text (filter (λ c, c ≠ " "%char) (chars s)).
Proof.
  induction s as [|c s IH]; [reflexivity|].
  simpl. unfold chars in *. simpl.
  destruct (Ascii.eqb_spec c " ") as [->|Hc].
  - rewrite filter_cons_False by (intros H; apply H; reflexivity). exact IH.
  - rewrite filter_cons_True by assumption. unfold text. simpl.
    f_equal. exact IH.
Qed.

(** C3, amended: only the cache key is built from the normalised
    identifier, and the normalisation removes the space characters and
    nothing else; the primary lookup is made with the identifier as it was
    given. *)
Theorem clean_normalises_cache_key_only (self : Model) (s : string) (w : world) :
  let key := app_label self +:+ "_" +:+ module_name self +:+ "_" +:+
             text (filter (λ c, c ≠ " "%char) (chars s)) in
  s ≠ "" ->
  ForeignKeyWidget.cache_key self s = key /\
  (exists rest,
     events_of (ForeignKeyWidget.clean self (VStr s)) w = CacheGet key :: rest) /\
  (truthy (cache.answer w key) = false ->
   exists rest,
     events_of (ForeignKeyWidget.clean self (VStr s)) w
     = CacheGet key :: StorageGetPk s :: rest).
Proof.
  intros key Hs.
  assert (Hkey : ForeignKeyWidget.cache_key self s = key).
  { unfold ForeignKeyWidget.cache_key, key. rewrite remove_char_filter.
    reflexivity. }
  split; [exact Hkey|].
  assert (Hfalsy : truthy (cache.answer w key) = false ->
            exists rest, events_of (ForeignKeyWidget.clean self (VStr s)) w
                         = CacheGet key :: StorageGetPk s :: rest).
  { intros Ht. unfold events_of.
    rewrite clean_text by assumption. rewrite Hkey, Ht.
    set (obj := cache.answer w key).
    destruct (lookup_trace self s obj (logged w [CacheGet key]))
      as (r & evs & Hl). rewrite Hl.
    destruct r as [v|e]; simpl; rewrite <- ?app_assoc; simpl;
      rewrite drop_app_length; eauto. }
  split; [|exact Hfalsy].
  destruct (truthy (cache.answer w key)) eqn:Ht.
  - exists []. apply (events_of_logged _ _ (Return (cache.answer w key))).
    rewrite <- Hkey in *. apply (clean_hit self s w Hs Ht).
  - destruct (Hfalsy eq_refl) as [rest ->]. eauto.
Qed.

Lemma clean_normalises_cache_key_only_witness :
  ForeignKeyWidget.cache_key country "4 2" = "geo_country_42" /\
  exists rest,
    events_of (ForeignKeyWidget.clean country (VStr "4 2")) fresh
    = CacheGet "geo_country_42" :: StorageGetPk "4 2" :: rest.
Proof.
  assert (Hs : "4 2" ≠ "") by discriminate.
  destruct (clean_normalises_cache_key_only country "4 2" fresh Hs)
    as (Hkey & _ & Hraw).
  split; [exact Hkey|].
  apply Hraw. vm_compute. reflexivity.
Defined.

(** C3 as stated fails: [country] has a row of key ["42"]; [clean] of
    ["4 2"] builds the cache key from ["42"] but asks storage for ["4 2"],
    finds nothing and returns [None]. *)
Lemma primary_lookup_raw_counterexample :
  remove_char " " "4 2" = "42" /\
  events_of (ForeignKeyWidget.clean country (VStr "4 2")) fresh
  = [CacheGet "geo_country_42"; StorageGetPk "4 2"; Stdout "DNE 4 2";
     CacheSet "geo_country_42" VNone] /\
  (StorageGetPk (remove_char " " "4 2")
     ∉ (events_of (ForeignKeyWidget.clean country (VStr "4 2")) fresh)) /\
  fst (ForeignKeyWidget.clean country (VStr "4 2") fresh) = Return VNone /\
  objects.find_pk country (remove_char " " "4 2")
  = Return (mkInstance (PkStr "42") "" "Atlantis").
Proof.
  split; [reflexivity|].
  split; [vm_compute; reflexivity|].
  split.
  { intros H. vm_compute in H.
    repeat (apply elem_of_cons in H as [H|H]; [discriminate H|]).
    inversion H. }
  split; vm_compute; reflexivity.
Qed.

(** C4: after a primary lookup that fails with [ValueError], a model with
    a [title] field is asked for the row whose title is the identifier as
    given, and [clean] ends as that lookup does; a model without the field
    is not asked again, and [clean] returns what the cache had answered,
    which is no entity ([None] when the key was not cached), without an
    error. *)
Theorem clean_malformed_key_fallback (self : Model) (s : string) (w : world)
    (msg : string) :
  let key := ForeignKeyWidget.cache_key self s in
  let obj := cache.answer w key in
  s ≠ "" ->
  truthy obj = false ->
  objects.find_pk self s = Raise (ValueError msg) ->
  ("title" ∈ fields self ->
   ForeignKeyWidget.clean self (VStr s) w
   = match objects.find_title self s with
     | Return o =>
         (Return (VObj o),
          stored w key (VObj o)
            [CacheGet key; StorageGetPk s; StorageGetTitle s;
             CacheSet key (VObj o)])
     | Raise e =>
         (Raise e, logged w [CacheGet key; StorageGetPk s; StorageGetTitle s])
     end) /\
  ("title" ∉ fields self ->
   ForeignKeyWidget.clean self (VStr s) w
   = (Return obj,
      stored w key obj [CacheGet key; StorageGetPk s; CacheSet key obj]) /\
   (forall o, obj ≠ VObj o) /\
   (w_cache w !! key = None -> obj = VNone)).
Proof.
  intros key obj Hs Ht Hpk. split; intros Hf.
  - apply (clean_by_title self s w msg Hs Ht Hpk Hf).
  - split; [|split].
    + rewrite clean_text by assumption. fold key. fold obj. rewrite Ht.
      rewrite (lookup_malformed_no_title _ _ _ _ msg Hpk Hf).
      rewrite logged_logged, stored_logged. reflexivity.
    + intros o Ho. rewrite Ho in Ht. discriminate Ht.
    + intros Hnone. unfold obj, cache.answer. rewrite Hnone. reflexivity.
Qed.

Lemma clean_malformed_key_fallback_witness :
  ForeignKeyWidget.clean category (VStr "Widgets") fresh
  = (Return (VObj widgets),
     stored fresh "shop_category_Widgets" (VObj widgets)
       [CacheGet "shop_category_Widgets"; StorageGetPk "Widgets";
        StorageGetTitle "Widgets";
        CacheSet "shop_category_Widgets" (VObj widgets)]) /\
  ForeignKeyWidget.clean (mkModel "shop" "tag" IntegerKey ["id"] []) (VStr "Widgets") fresh
  = (Return VNone,
     stored fresh "shop_tag_Widgets" VNone
       [CacheGet "shop_tag_Widgets"; StorageGetPk "Widgets";
        CacheSet "shop_tag_Widgets" VNone]).
Proof.
  split.
  - apply (proj1 (clean_malformed_key_fallback category "Widgets" fresh
                    "invalid literal for int() with base 10"
                    ltac:(discriminate) eq_refl eq_refl)).
    vm_compute. repeat constructor.
  - apply (proj2 (clean_malformed_key_fallback
                    (mkModel "shop" "tag" IntegerKey ["id"] []) "Widgets" fresh
                    "invalid literal for int() with base 10"
                    ltac:(discriminate) eq_refl eq_refl)).
    intros H. apply elem_of_cons in H as [H|H]; [discriminate H | inversion H].
Defined.

(** C10: when the primary lookup fails with [ValueError], the model has a
    [title] field and the rows with that title are none or several, the
    exception of the title lookup ([DoesNotExist] for none,
    [MultipleObjectsReturned] for several) is the outcome of [clean], as it
    was raised; the call ends before the cache write, so the cache is the
    one the call started with. *)
Theorem clean_title_error_propagates (self : Model) (s : string) (w : world)
    (msg : string) :
  let key := ForeignKeyWidget.cache_key self s in
  let titled := filter (λ o, inst_title o = s) (table self) in
  s ≠ "" ->
  truthy (cache.answer w key) = false ->
  objects.find_pk self s = Raise (ValueError msg) ->
  "title" ∈ fields self ->
  length titled ≠ 1%nat ->
  exists e,
    objects.find_title self s = Raise e /\
    ((titled = [] /\ exists m, e = DoesNotExist m) \/
     ((2 <= length titled)%nat /\ exists m, e = MultipleObjectsReturned m)) /\
    ForeignKeyWidget.clean self (VStr s) w
    = (Raise e, logged w [CacheGet key; StorageGetPk s; StorageGetTitle s]) /\
    w_cache (snd (ForeignKeyWidget.clean self (VStr s) w)) = w_cache w /\
    writes_cache (events_of (ForeignKeyWidget.clean self (VStr s)) w) = false.
Proof.
  intros key titled Hs Ht Hpk Hf Hlen.
  destruct (objects.find_title self s) as [o|e] eqn:Htitle.
  { exfalso. unfold objects.find_title in Htitle. fold titled in Htitle.
    destruct titled as [|o1 [|o2 l]]; simpl in *;
      [discriminate Htitle | lia | discriminate Htitle]. }
  exists e. split; [reflexivity|].
  split; [apply get_single_cases; exact Htitle|].
  assert (Hcall : ForeignKeyWidget.clean self (VStr s) w
            = (Raise e, logged w [CacheGet key; StorageGetPk s; StorageGetTitle s])).
  { rewrite (clean_by_title self s w msg Hs Ht Hpk Hf).
    rewrite Htitle. reflexivity. }
  split; [exact Hcall|].
  split; [rewrite Hcall; reflexivity|].
  rewrite (events_of_logged _ _ _ _ Hcall). reflexivity.
Qed.

Lemma clean_title_error_propagates_witness :
  exists e,
    objects.find_title category "Nope" = Raise e /\
    ForeignKeyWidget.clean category (VStr "Nope") fresh
    = (Raise e, logged fresh [CacheGet "shop_category_Nope"; StorageGetPk "Nope";
                              StorageGetTitle "Nope"]).
Proof.
  destruct (clean_title_error_propagates category "Nope" fresh
              "invalid literal for int() with base 10")
    as (e & He & _ & Hcall & _).
  - discriminate.
  - reflexivity.
  - reflexivity.
  - vm_compute. repeat constructor.
  - vm_compute. discriminate.
  - exists e. split; assumption.
Defined.

(** C7, amended: [render] of [None] is the empty text, and [render] of an
    entity is its primary key as the entity holds it: a text for a text key,
    an integer, not a text, for an integer key. *)
Theorem render_returns_pk_unchanged (o : instance) :
  ForeignKeyWidget.render VNone = Return (VStr "") /\
  ForeignKeyWidget.render (VObj o) = Return (value_of_pk (inst_pk o)) /\
  (forall n, inst_pk o = PkInt n -> ForeignKeyWidget.render (VObj o) = Return (VInt n)) /\
  (forall s, inst_pk o = PkStr s -> ForeignKeyWidget.render (VObj o) = Return (VStr s)).
Proof.
  repeat split; simpl; intros ? ->; reflexivity.
Qed.

Lemma render_returns_pk_unchanged_witness :
  ForeignKeyWidget.render (VObj widgets) = Return (VInt 42) /\
  ForeignKeyWidget.render (VObj (mkInstance (PkStr "NZ") "" "New Zealand"))
  = Return (VStr "NZ").
Proof.
  split.
  - apply (render_returns_pk_unchanged widgets). reflexivity.
  - apply (render_returns_pk_unchanged (mkInstance (PkStr "NZ") "" "New Zealand")).
    reflexivity.
Defined.

(** C7 as stated fails: the row of key 42 renders as the integer 42, which
    is no text. *)
Lemma render_integer_key_counterexample :
  ForeignKeyWidget.render (VObj widgets) = Return (VInt 42) /\
  forall s, ForeignKeyWidget.render (VObj widgets) ≠ Return (VStr s).
Proof. split; [reflexivity | intros s H; discriminate H]. Qed.

(** * Properties of the reference-set widget *)

Lemma to_python_all_elem (self : Model) (ids : list string) (ks : list pk_value) :
  to_python_all self ids = Return ks ->
  forall k, k ∈ ks <-> exists piece, piece ∈ ids /\ to_python self piece = Return k.
Proof.
  revert ks. induction ids as [|piece ids IH]; simpl; intros ks H k.
  - inversion H; subst. split.
    + intros Hk. inversion Hk.
    + intros (p & Hp & _). inversion Hp.
  - destruct (to_python self piece) as [k0|e] eqn:Hk0; [|discriminate H].
    destruct (to_python_all self ids) as [ks0|e]; [|discriminate H].
    inversion H; subst. rewrite elem_of_cons, (IH ks0 eq_refl k). split.
    + intros [->|(p & Hp & Hk)].
      * exists piece. split; [left|]; auto.
      * exists p. split; [right|]; auto.
    + intros (p & Hp & Hk). apply elem_of_cons in Hp as [->|Hp].
      * left. congruence.
      * right. eauto.
Qed.

Lemma to_python_all_raises (self : Model) (ids : list string) (e : exn) :
  to_python_all self ids = Raise e ->
  exists piece, piece ∈ ids /\ to_python self piece = Raise e.
Proof.
  induction ids as [|piece ids IH]; simpl; [discriminate|].
  destruct (to_python self piece) as [k0|e0] eqn:Hk0.
  - destruct (to_python_all self ids) as [ks0|e1]; [discriminate|].
    intros H. inversion H; subst. destruct (IH eq_refl) as (p & Hp & Hr).
    exists p. split; [right|]; auto.
  - intros H. inversion H; subst. exists piece. split; [left|]; auto.
Qed.

(** [split] cuts at the commas and at nothing else: joining the pieces with
    commas gives the text back, blanks included. *)
Lemma join_split (s : string) : join "," (split "," s) = s.
Proof.
  induction s as [|c s IH]; [reflexivity|].
  simpl. destruct (Ascii.eqb_spec c ",") as [->|Hc].
  - destruct (split "," s) as [|p ps] eqn:Hsp.
    + destruct s; simpl in Hsp; [discriminate|].
      destruct (Ascii.eqb a ","); [discriminate|].
      destruct (split "," s); discriminate.
    + change (join "," ("" :: p :: ps)) with ("" +:+ "," +:+ join "," (p :: ps)).
      rewrite IH. reflexivity.
  - destruct (split "," s) as [|p ps] eqn:Hsp.
    + destruct s; simpl in Hsp; [discriminate|].
      destruct (Ascii.eqb a ","); [discriminate|].
      destruct (split "," s); discriminate.
    + destruct ps as [|p' ps]; simpl in *; rewrite <- IH; reflexivity.
Qed.

(** C9, amended: [clean] of an empty or absent value is the empty
    collection, with no storage access.  [clean] of a text that is not
    empty cuts it at the commas, keeps the pieces as they are, and makes a
    single batch query with them.  When the key field accepts every piece,
    the result is the rows of the table, in table order, whose key is the
    key of one of the pieces; when the key field rejects a piece, the
    error of the query is the outcome of [clean]. *)
Theorem m2m_clean_batch_query (self : Model) (s : string) (w : world) :
  (forall value, truthy value = false ->
     ManyToManyWidget.clean self value w = (Return [], w)) /\
  (s ≠ "" ->
   exists r,
     ManyToManyWidget.clean self (VStr s) w
     = (r, logged w [StorageFilterPkIn (split "," s)]) /\
     join "," (split "," s) = s /\
     (forall ks, to_python_all self (split "," s) = Return ks ->
        r = Return (filter (λ o, inst_pk o ∈ ks) (table self)) /\
        forall o, o ∈ filter (λ o, inst_pk o ∈ ks) (table self) <->
                  o ∈ table self /\
                  exists piece, piece ∈ split "," s /\
                                to_python self piece = Return (inst_pk o)) /\
     (forall e, to_python_all self (split "," s) = Raise e ->
        r = Raise e /\
        exists piece, piece ∈ split "," s /\ to_python self piece = Raise e)).
Proof.
  split.
  - intros value Hv. unfold ManyToManyWidget.clean. rewrite Hv. reflexivity.
  - intros Hs.
    exists (objects.select_pk_in self (split "," s)).
    split; [|split; [apply join_split|split]].
    + unfold ManyToManyWidget.clean. rewrite (truthy_text s Hs). simpl.
      run_M. reflexivity.
    + intros ks Hks. unfold objects.select_pk_in. rewrite Hks.
      split; [reflexivity|].
      intros o. rewrite list_elem_of_filter.
      rewrite (to_python_all_elem self _ ks Hks). tauto.
    + intros e He. unfold objects.select_pk_in. rewrite He.
      split; [reflexivity|]. apply to_python_all_raises. exact He.
Qed.

Lemma m2m_clean_batch_query_witness :
  ManyToManyWidget.clean category (VStr "") fresh = (Return [], fresh) /\
  exists r,
    ManyToManyWidget.clean category (VStr "1,2,3") fresh
    = (r, logged fresh [StorageFilterPkIn ["1"; "2"; "3"]]) /\
    r = Return [books; toys].
Proof.
  split.
  - apply (proj1 (m2m_clean_batch_query category "" fresh)). reflexivity.
  - destruct (proj2 (m2m_clean_batch_query category "1,2,3" fresh))
      as (r & Hcall & _ & Hok & _); [discriminate|].
    exists r. split; [exact Hcall|].
    apply (Hok [PkInt 1; PkInt 2; PkInt 3]). vm_compute. reflexivity.
Defined.

(** C9 as stated fails: the text ["1,x"] is not empty, yet [clean] on a
    model with an integer key returns no rows at all: the batch query
    raises [ValueError] for the piece ["x"]. *)
Lemma m2m_clean_malformed_counterexample :
  split "," "1,x" = ["1"; "x"] /\
  ManyToManyWidget.clean category (VStr "1,x") fresh
  = (Raise (ValueError "invalid literal for int() with base 10"),
     logged fresh [StorageFilterPkIn ["1"; "x"]]) /\
  objects.find_pk category "1" = Return books.
Proof. repeat split; vm_compute; reflexivity. Qed.

(** * Properties of the scalar widgets *)

(** C6, amended: for an empty text and for [None], the integer, decimal,
    date, datetime and reference widgets return [None] (the reference
    widget without touching the cache or storage), the boolean widget
    returns [False], the text widget returns the value as it is, and the
    reference-set widget returns the empty collection. *)
Theorem clean_absent_value (value : val) (self : Model) (w : world)
    (dw : DateWidget.t) (tw : DateTimeWidget.t) :
  value = VStr "" \/ value = VNone ->
  IntegerWidget.clean value = Return VNone /\
  DecimalWidget.clean value = Return VNone /\
  DateWidget.clean dw value = Return VNone /\
  DateTimeWidget.clean tw value = Return VNone /\
  ForeignKeyWidget.clean self value w = (Return VNone, w) /\
  BooleanWidget.clean value = Return (VBool false) /\
  CharWidget.clean value = value /\
  ManyToManyWidget.clean self value w = (Return [], w).
Proof. intros [-> | ->]; repeat split; reflexivity. Qed.

Lemma clean_absent_value_witness :
  IntegerWidget.clean (VStr "") = Return VNone /\
  BooleanWidget.clean VNone = Return (VBool false).
Proof.
  split.
  - apply (clean_absent_value (VStr "") category fresh
             (DateWidget.init None) (DateTimeWidget.init None)).
    left. reflexivity.
  - apply (clean_absent_value VNone category fresh
             (DateWidget.init None) (DateTimeWidget.init None)).
    right. reflexivity.
Defined.

(** C6 as stated fails for the boolean widget: its [clean] answers [False],
    a boolean, for the empty text and for [None]. *)
Lemma boolean_absent_counterexample :
  BooleanWidget.clean (VStr "") = Return (VBool false) /\
  BooleanWidget.clean VNone = Return (VBool false) /\
  BooleanWidget.clean (VStr "") ≠ Return VNone /\
  BooleanWidget.clean VNone ≠ Return VNone.
Proof. repeat split; try reflexivity; discriminate. Qed.

(** ** Texts without blanks, runs of digits *)

Lemma text_chars (s : string) : text (chars s) = s.
Proof. apply string_of_list_ascii_of_string. Qed.

Lemma chars_text (l : list ascii) : chars (text l) = l.
Proof. apply list_ascii_of_string_of_list_ascii. Qed.

Lemma chars_append (s1 s2 : string) : chars (s1 +:+ s2) = (chars s1 ++ chars s2)%list.
Proof. induction s1 as [|c s1 IH]; simpl; [reflexivity|]. unfold chars in *. simpl. f_equal. exact IH. Qed.

Lemma lstrip_no_blank (l : list ascii) : no_blank l -> lstrip l = l.
Proof. intros H. destruct H as [|c l Hc Hl]; simpl; [reflexivity|]. rewrite Hc. reflexivity. Qed.

Lemma strip_no_blank (l : list ascii) : no_blank l -> strip l = l.
Proof.
  intros H. unfold strip. rewrite (lstrip_no_blank l H).
  rewrite lstrip_no_blank.
  - apply rev_involutive.
  - unfold no_blank. apply Forall_rev. exact H.
Qed.

Lemma digit_no_blank (c : ascii) : is_digit c = true -> is_space c = false.
Proof.
  destruct c as [[] [] [] [] [] [] [] []]; vm_compute; congruence.
Qed.

Lemma digits_no_blank (l : list ascii) : forallb is_digit l = true -> no_blank l.
Proof.
  induction l as [|c l IH]; simpl; intros H; constructor.
  - apply andb_true_iff in H as [H _]. apply digit_no_blank, H.
  - apply andb_true_iff in H as [_ H]. apply IH, H.
Qed.

Lemma uint_digits (u : Decimal.uint) :
  forallb is_digit (chars (NilEmpty.string_of_uint u)) = true.
Proof. induction u; simpl; try reflexivity; exact IHu. Qed.

Lemma str_of_N_digits (n : N) : forallb is_digit (chars (str_of_N n)) = true.
Proof. apply uint_digits. Qed.

Lemma str_of_N_nonempty (n : N) : exists c l, chars (str_of_N n) = c :: l.
Proof.
  unfold str_of_N. destruct n as [|p]; [simpl; eauto|].
  simpl. unfold Pos.to_uint.
  pose proof (DecimalPos.Unsigned.to_uint_nonnil p) as Hnil.
  unfold Pos.to_uint in Hnil.
  destruct (Decimal.rev (Pos.to_little_uint p)); [contradiction|..]; simpl; eauto.
Qed.

Lemma N_of_digits_str (n : N) : N_of_digits (chars (str_of_N n)) = Some n.
Proof.
  unfold N_of_digits.
  destruct (str_of_N_nonempty n) as (c & l & Hcl).
  rewrite Hcl. rewrite <- Hcl. rewrite str_of_N_digits, text_chars.
  unfold str_of_N. rewrite NilEmpty.usu. simpl.
  rewrite DecimalN.Unsigned.of_to. reflexivity.
Qed.

Lemma int_of_string_digits (c : ascii) (l : list ascii) :
  forallb is_digit (c :: l) = true ->
  int_of_string (text (c :: l)) = option_map Z.of_N (N_of_digits (c :: l)).
Proof.
  intros H. unfold int_of_string.
  rewrite chars_text, (strip_no_blank _ (digits_no_blank _ H)).
  simpl in H. apply andb_true_iff in H as [Hc _].
  destruct c as [[] [] [] [] [] [] [] []]; try discriminate Hc; reflexivity.
Qed.

(** [int(str(n))] is [n]. *)
Lemma int_of_string_str (n : Z) : int_of_string (str_of_Z n) = Some n.
Proof.
  unfold str_of_Z. destruct (Z.ltb_spec n 0) as [Hn|Hn].
  - unfold int_of_string.
    change (chars (String "-" (str_of_N (Z.abs_N n))))
      with ("-"%char :: chars (str_of_N (Z.abs_N n))).
    rewrite strip_no_blank.
    + rewrite N_of_digits_str. simpl. f_equal. lia.
    + constructor; [reflexivity|]. apply digits_no_blank, str_of_N_digits.
  - destruct (str_of_N_nonempty (Z.abs_N n)) as (c & l & Hcl).
    rewrite <- (text_chars (str_of_N (Z.abs_N n))), Hcl.
    rewrite int_of_string_digits by (rewrite <- Hcl; apply str_of_N_digits).
    rewrite <- Hcl, N_of_digits_str. simpl. f_equal. lia.
Qed.





(** ** [strptime] reads back what [strftime] wrote *)

Lemma range_cases (P : Z -> Prop) (lo : Z) (len : nat) :
  Forall P (seqZ lo (Z.of_nat len)) ->
  forall n, lo <= n < lo + Z.of_nat len -> P n.
Proof.
  intros H n Hn. rewrite Forall_forall in H. apply H.
  apply elem_of_seqZ. lia.
Qed.

Lemma year_padded_back (y : Z) : 0 <= y <= 9999 -> padded_back 4 y = true.
Proof.
  intros Hy.
  assert (H : forallb (padded_back 4) (seqZ 0 10000) = true) by (vm_compute; reflexivity).
  rewrite forallb_forall in H. apply H. apply list_elem_of_In, elem_of_seqZ. lia.
Qed.

Lemma two_padded_back (n : Z) : 0 <= n <= 99 -> padded_back 2 n = true.
Proof.
  intros Hn.
  assert (H : forallb (padded_back 2) (seqZ 0 100) = true) by (vm_compute; reflexivity).
  rewrite forallb_forall in H. apply H. apply list_elem_of_In, elem_of_seqZ. lia.
Qed.

Lemma zeros_digits (k : nat) : forallb is_digit (chars (zeros k)) = true.
Proof.
  unfold zeros. rewrite chars_text. induction k; simpl; [reflexivity | exact IHk].
Qed.

Lemma zero_pad_digits (width : nat) (n : N) :
  forallb is_digit (chars (zero_pad width n)) = true.
Proof.
  unfold zero_pad. rewrite chars_append, forallb_app, zeros_digits, str_of_N_digits.
  reflexivity.
Qed.

Lemma match_nodes_literal (c : ascii) (nodes : list node) (rest : list ascii) :
  match_nodes (NLit c :: nodes) (c :: rest) = match_nodes nodes rest.
Proof. simpl. rewrite Ascii.eqb_refl. reflexivity. Qed.

Lemma match_nodes_blank (c : ascii) (nodes : list node) (rest : list ascii) :
  is_space c = false ->
  match_nodes (NBlank :: nodes) (" "%char :: c :: rest)
  = match_nodes nodes (c :: rest).
Proof. intros Hc. simpl. rewrite Hc. reflexivity. Qed.

Lemma match_nodes_year (y : Z) (nodes : list node) (rest : list ascii)
    (f : found) (r : list ascii) :
  0 <= y <= 9999 ->
  match_nodes nodes rest = Some (f, r) ->
  match_nodes (NDir DirYear :: nodes) (chars (zero_pad 4 (Z.to_N y)) ++ rest)
  = Some ((DirYear, chars (zero_pad 4 (Z.to_N y))) :: f, r).
Proof.
  intros Hy Hk.
  pose proof (year_padded_back y Hy) as Hb.
  pose proof (zero_pad_digits 4 (Z.to_N y)) as Hd.
  apply andb_true_iff in Hb as [Hlen _]. apply bool_decide_eq_true in Hlen.
  destruct (chars (zero_pad 4 (Z.to_N y))) as [|a [|b [|c [|d [|? ?]]]]];
    try discriminate Hlen.
  simpl in Hd. repeat (apply andb_true_iff in Hd as [? Hd]).
  simpl. repeat match goal with H : is_digit _ = true |- _ => rewrite H; clear H end.
  rewrite Hk. reflexivity.
Qed.

Lemma two_digit_step_intro (d : directive) (n : Z) :
  (forall (k : list ascii -> option (found * list ascii)) (rest : list ascii)
          (f : found) (r : list ascii),
     k rest = Some (f, r) ->
     first_alternative d k (alternatives d)
       (chars (zero_pad 2 (Z.to_N n)) ++ rest)
     = Some ((d, chars (zero_pad 2 (Z.to_N n))) :: f, r)) ->
  two_digit_step d n.
Proof. intros H nodes rest f r Hk. apply (H (match_nodes nodes)), Hk. Qed.

Ltac two_digit_cases :=
  repeat (constructor;
          [apply two_digit_step_intro; intros k rest f r Hk;
           vm_compute; rewrite Hk; reflexivity|]);
  constructor.

Lemma match_nodes_two_digits (d : directive) (n : Z) :
  d ≠ DirYear -> field_low d <= n <= field_high d -> two_digit_step d n.
Proof.
  intros Hd Hn.
  destruct d; [contradiction| | | | |]; simpl in Hn.
  - apply (range_cases (two_digit_step DirMonth) 1 12); [|lia].
    vm_compute seqZ. two_digit_cases.
  - apply (range_cases (two_digit_step DirDay) 1 31); [|lia].
    vm_compute seqZ. two_digit_cases.
  - apply (range_cases (two_digit_step DirHour) 0 24); [|lia].
    vm_compute seqZ. two_digit_cases.
  - apply (range_cases (two_digit_step DirMinute) 0 60); [|lia].
    vm_compute seqZ. two_digit_cases.
  - apply (range_cases (two_digit_step DirSecond) 0 60); [|lia].
    vm_compute seqZ. two_digit_cases.
Qed.

Lemma found_field_here (d : directive) (txt : list ascii) (f : found) (dflt : Z) :
  found_field ((d, txt) :: f) d dflt = default dflt (int_of_string (text txt)).
Proof. unfold found_field. simpl. rewrite decide_True by reflexivity. reflexivity. Qed.

Lemma found_field_skip (d d' : directive) (txt : list ascii) (f : found) (dflt : Z) :
  d' ≠ d -> found_field ((d', txt) :: f) d dflt = found_field f d dflt.
Proof.
  intros Hd. unfold found_field. simpl. rewrite decide_False by exact Hd.
  destruct (list_find _ f) as [[i [d0 t0]]|]; reflexivity.
Qed.

Lemma found_field_padded (width : nat) (n : Z) (d : directive) (f : found) (dflt : Z) :
  padded_back width n = true ->
  found_field ((d, chars (zero_pad width (Z.to_N n))) :: f) d dflt = n.
Proof.
  intros H. apply andb_true_iff in H as [_ H]. apply bool_decide_eq_true in H.
  rewrite found_field_here, text_chars, H. reflexivity.
Qed.

Lemma found_field_none (d : directive) (dflt : Z) : found_field [] d dflt = dflt.
Proof. reflexivity. Qed.

Ltac read_fields :=
  repeat first
    [ rewrite (found_field_padded 4) by (apply year_padded_back; lia)
    | rewrite (found_field_padded 2) by (apply two_padded_back; lia)
    | rewrite found_field_skip by discriminate
    | rewrite found_field_none ].

(** What [strptime] answers once the expression of the format has matched
    the whole text. *)
Lemma strptime_matched (data format : string) (items : list fmt_item) (f : found) :
  parse_format (chars format) = Some items ->
  NoDup (directives_of (compile items)) ->
  match_nodes (compile items) (chars data) = Some (f, []) ->
  strptime data format
  = let t := mkDateTime
               (mkDate (found_field f DirYear 1900) (found_field f DirMonth 1)
                       (found_field f DirDay 1))
               (found_field f DirHour 0) (found_field f DirMinute 0)
               (found_field f DirSecond 0) 0 in
    if valid_datetime t then Return t else Raise (ValueError "value out of range").
Proof.
  intros Hp Hn Hm. unfold strptime. rewrite Hp.
  rewrite (bool_decide_eq_true_2 _ Hn). simpl negb. cbv iota. rewrite Hm. reflexivity.
Qed.

Lemma valid_date_bounds (d : date) :
  valid_date d = true ->
  1 <= year d <= 9999 /\ 1 <= month d <= 12 /\ 1 <= day d <= 31.
Proof.
  unfold valid_date, days_in_month. intros H.
  repeat (apply andb_true_iff in H as [H ?]).
  destruct (month d =? 2); [destruct (is_leap (year d))|];
    [| |destruct ((month d =? 4) || (month d =? 6) || (month d =? 9) || (month d =? 11))];
    lia.
Qed.

Lemma valid_datetime_bounds (t : datetime) :
  valid_datetime t = true ->
  valid_date (dt_date t) = true /\
  0 <= hour t <= 23 /\ 0 <= minute t <= 59 /\ 0 <= second t <= 59 /\
  0 <= microsecond t <= 999999.
Proof.
  unfold valid_datetime. generalize (valid_date (dt_date t)). intros v H.
  repeat (apply andb_true_iff in H as [H ?]).
  split; [assumption | lia].
Qed.

(** The text of a date under the default format, and its way back. *)
Lemma strptime_default_date (d : date) :
  valid_date d = true ->
  strptime (format_items
              [FDir DirYear; FLit "-"; FDir DirMonth; FLit "-"; FDir DirDay]
              (midnight d))
           "%Y-%m-%d"
  = Return (midnight d).
Proof.
  intros Hv. destruct (valid_date_bounds d Hv) as (Hy & Hm & Hd).
  set (fy := (DirYear, chars (zero_pad 4 (Z.to_N (year d))))).
  set (fm := (DirMonth, chars (zero_pad 2 (Z.to_N (month d))))).
  set (fd := (DirDay, chars (zero_pad 2 (Z.to_N (day d))))).
  rewrite (strptime_matched _ _
             [FDir DirYear; FLit "-"; FDir DirMonth; FLit "-"; FDir DirDay]
             [fy; fm; fd]).
  - unfold fy, fm, fd. read_fields.
    assert (Ht : valid_datetime (midnight d) = true)
      by (unfold valid_datetime, midnight; simpl; rewrite Hv; reflexivity).
    replace (mkDate (year d) (month d) (day d)) with d by (destruct d; reflexivity).
    cbv zeta. fold (midnight d). rewrite Ht. reflexivity.
  - reflexivity.
  - apply (bool_decide_unpack _). vm_compute. exact I.
  - simpl compile. simpl format_items. unfold field, midnight; simpl dt_date.
    rewrite chars_append.
    apply match_nodes_year; [lia|].
    change (chars (String "-" ?s)) with ("-"%char :: chars s).
    rewrite match_nodes_literal, chars_append.
    apply (match_nodes_two_digits DirMonth); [discriminate | simpl; lia|].
    change (chars (String "-" ?s)) with ("-"%char :: chars s).
    rewrite match_nodes_literal, chars_append.
    apply (match_nodes_two_digits DirDay); [discriminate | simpl; lia|].
    reflexivity.
Qed.

Lemma digit_head_no_blank (width : nat) (n : N) (rest : list ascii) :
  (0 < width)%nat ->
  exists c l, (chars (zero_pad width n) ++ rest)%list = c :: l /\ is_space c = false.
Proof.
  intros Hw. pose proof (zero_pad_digits width n) as Hd.
  destruct (chars (zero_pad width n)) as [|c l] eqn:Hc.
  - exfalso. unfold zero_pad in Hc. rewrite chars_append in Hc.
    destruct (str_of_N_nonempty n) as (c & l & Hn). rewrite Hn in Hc.
    destruct (chars (zeros _)); discriminate Hc.
  - exists c, (l ++ rest)%list. split; [reflexivity|].
    simpl in Hd. apply andb_true_iff in Hd as [Hd _]. apply digit_no_blank, Hd.
Qed.

(** The text of a datetime under the default format, and its way back: the
    microseconds are not written, so they come back as zero. *)
Lemma strptime_default_datetime (t : datetime) :
  valid_datetime t = true ->
  strptime (format_items
              [FDir DirYear; FLit "-"; FDir DirMonth; FLit "-"; FDir DirDay;
               FLit " "; FDir DirHour; FLit ":"; FDir DirMinute; FLit ":";
               FDir DirSecond] t)
           "%Y-%m-%d %H:%M:%S"
  = Return (mkDateTime (dt_date t) (hour t) (minute t) (second t) 0).
Proof.
  intros Hv. destruct (valid_datetime_bounds t Hv) as (Hvd & HH & HM & HS & _).
  destruct (valid_date_bounds _ Hvd) as (Hy & Hm & Hd).
  set (d := dt_date t) in *.
  rewrite (strptime_matched _ _
             [FDir DirYear; FLit "-"; FDir DirMonth; FLit "-"; FDir DirDay;
              FLit " "; FDir DirHour; FLit ":"; FDir DirMinute; FLit ":";
              FDir DirSecond]
             [(DirYear, chars (zero_pad 4 (Z.to_N (year d))));
              (DirMonth, chars (zero_pad 2 (Z.to_N (month d))));
              (DirDay, chars (zero_pad 2 (Z.to_N (day d))));
              (DirHour, chars (zero_pad 2 (Z.to_N (hour t))));
              (DirMinute, chars (zero_pad 2 (Z.to_N (minute t))));
              (DirSecond, chars (zero_pad 2 (Z.to_N (second t))))]).
  - read_fields.
    replace (mkDate (year d) (month d) (day d)) with d by (destruct d; reflexivity).
    cbv zeta.
    assert (Ht : valid_datetime (mkDateTime d (hour t) (minute t) (second t) 0) = true).
    { unfold valid_datetime. simpl. fold d. rewrite Hvd. simpl.
      repeat (apply andb_true_iff; split); lia. }
    rewrite Ht. reflexivity.
  - reflexivity.
  - apply (bool_decide_unpack _). vm_compute. exact I.
  - simpl compile. simpl format_items. unfold field. fold d.
    rewrite chars_append.
    apply match_nodes_year; [lia|].
    change (chars (String "-" ?s)) with ("-"%char :: chars s).
    rewrite match_nodes_literal, chars_append.
    apply (match_nodes_two_digits DirMonth); [discriminate | simpl; lia|].
    change (chars (String "-" ?s)) with ("-"%char :: chars s).
    rewrite match_nodes_literal, chars_append.
    apply (match_nodes_two_digits DirDay); [discriminate | simpl; lia|].
    change (chars (String " " ?s)) with (" "%char :: chars s).
    rewrite chars_append.
    destruct (digit_head_no_blank 2 (Z.to_N (hour t))
                (chars (String ":" (zero_pad 2 (Z.to_N (minute t)) +:+
                                    String ":" (zero_pad 2 (Z.to_N (second t)) +:+ "")))))
      as (c & l & Hcl & Hc); [lia|].
    rewrite Hcl, (match_nodes_blank c _ l Hc), <- Hcl.
    apply (match_nodes_two_digits DirHour); [discriminate | simpl; lia|].
    change (chars (String ":" ?s)) with (":"%char :: chars s).
    rewrite match_nodes_literal, chars_append.
    apply (match_nodes_two_digits DirMinute); [discriminate | simpl; lia|].
    change (chars (String ":" ?s)) with (":"%char :: chars s).
    rewrite match_nodes_literal, chars_append.
    apply (match_nodes_two_digits DirSecond); [discriminate | simpl; lia|].
    reflexivity.
Qed.

(** ** [Decimal] reads back what [str] wrote *)

Lemma span_digits_app (ds rest : list ascii) :
  forallb is_digit ds = true -> stops_digits rest ->
  span_digits (ds ++ rest) = (ds, rest).
Proof.
  intros Hd Hr. induction ds as [|c ds IH]; cbn [app span_digits].
  - destruct rest as [|c rest]; [reflexivity|]. cbn [stops_digits] in Hr.
    cbn [span_digits]. rewrite Hr. reflexivity.
  - cbn [forallb] in Hd. apply andb_true_iff in Hd as [Hc Hd].
    rewrite Hc, (IH Hd). reflexivity.
Qed.

Lemma N_of_digits0_str (n : N) : N_of_digits0 (chars (str_of_N n)) = n.
Proof.
  unfold N_of_digits0. rewrite N_of_digits_str.
  destruct (str_of_N_nonempty n) as (c & l & ->). reflexivity.
Qed.



Lemma parse_exponent_none : parse_exponent [] = Some 0.
Proof. reflexivity. Qed.



Lemma parse_finite_plain (sign : bool) (intd tail : list ascii) (e : Z) :
  forallb is_digit intd = true -> intd ≠ [] ->
  tail = [] \/ (exists t, tail = "E"%char :: t) ->
  parse_exponent tail = Some e ->
  parse_finite sign (intd ++ tail)
  = Some (DecFinite sign (N_of_digits0 intd) e).
Proof.
  intros Hi Hne Ht He. unfold parse_finite.
  rewrite (span_digits_app intd _ Hi) by (destruct Ht as [->|[t ->]]; reflexivity).
  assert (Hfrac : match tail with
                  | "."%char :: r => span_digits r
                  | _ => ([], tail)
                  end = ([], tail)) by (destruct Ht as [->|[t ->]]; reflexivity).
  rewrite Hfrac, app_nil_r.
  destruct intd as [|c l]; [contradiction|].
  rewrite He. simpl length. rewrite Z.sub_0_r. reflexivity.
Qed.






Lemma no_blank_app (l1 l2 : list ascii) : no_blank l1 -> no_blank l2 -> no_blank (l1 ++ l2).
Proof. unfold no_blank. intros. apply Forall_app. split; assumption. Qed.




Lemma sign_dispatch (sign : bool) (d : ascii) (l : list ascii) :
  is_digit d = true \/ d = "I"%char \/ d = "N"%char \/ d = "s"%char ->
  split_sign (chars (sign_text sign) ++ d :: l) = (sign, d :: l).
Proof.
  intros Hd. destruct sign; [reflexivity|].
  simpl. destruct Hd as [Hd|[->|[->| ->]]]; try reflexivity.
  destruct d as [[] [] [] [] [] [] [] []]; try discriminate Hd; reflexivity.
Qed.

Lemma decimal_of_string_body (sign : bool) (d : ascii) (l : list ascii) :
  is_digit d = true \/ d = "I"%char \/ d = "N"%char \/ d = "s"%char ->
  no_blank (d :: l) ->
  decimal_of_string (sign_text sign +:+ text (d :: l))
  = match parse_finite sign (d :: l) with
    | Some x => Some x
    | None => parse_special sign (d :: l)
    end.
Proof.
  intros Hd Hb. unfold decimal_of_string.
  rewrite chars_append, chars_text, strip_no_blank.
  - rewrite (sign_dispatch sign d l Hd). reflexivity.
  - apply no_blank_app; [|exact Hb]. destruct sign; repeat constructor.
Qed.





Lemma date_widget_round_trip (d : date) :
  valid_date d = true ->
  exists s,
    DateWidget.render (DateWidget.init None) (VDate d) = Return s /\
    DateWidget.clean (DateWidget.init None) (VStr s) = Return (VDate d).
Proof.
  intros Hv.
  exists (format_items
            [FDir DirYear; FLit "-"; FDir DirMonth; FLit "-"; FDir DirDay]
            (midnight d)).
  split.
  - unfold DateWidget.render, py_strftime, strftime. simpl DateWidget.format.
    destruct (year (dt_date (midnight d)) <? 1900); reflexivity.
  - unfold DateWidget.clean, py_strptime. simpl DateWidget.format.
    rewrite truthy_text.
    + rewrite (strptime_default_date d Hv). reflexivity.
    + intros H. pose proof (strptime_default_date d Hv) as Hr.
      rewrite H in Hr. discriminate Hr.
Qed.

Lemma datetime_widget_round_trip (t : datetime) :
  valid_datetime t = true ->
  1900 <= year (dt_date t) ->
  exists s,
    DateTimeWidget.render (DateTimeWidget.init None) (VDateTime t) = Return s /\
    DateTimeWidget.clean (DateTimeWidget.init None) (VStr s)
    = Return (VDateTime (mkDateTime (dt_date t) (hour t) (minute t) (second t) 0)).
Proof.
  intros Hv Hy.
  exists (format_items
            [FDir DirYear; FLit "-"; FDir DirMonth; FLit "-"; FDir DirDay;
             FLit " "; FDir DirHour; FLit ":"; FDir DirMinute; FLit ":";
             FDir DirSecond] t).
  split.
  - unfold DateTimeWidget.render, py_strftime, strftime. simpl DateTimeWidget.format.
    destruct (Z.ltb_spec (year (dt_date t)) 1900); [lia | reflexivity].
  - unfold DateTimeWidget.clean, py_strptime. simpl DateTimeWidget.format.
    rewrite truthy_text.
    + rewrite (strptime_default_datetime t Hv). reflexivity.
    + intros H. pose proof (strptime_default_datetime t Hv) as Hr.
      rewrite H in Hr. discriminate Hr.
Qed.

(** ** [strptime] reads back what [strftime] wrote, for every format *)





















(** * The paths of the reference widget *)

Lemma lookup_other (self : Model) (s : string) (obj : val) (w : world) (e : exn) :
  objects.find_pk self s = Raise e ->
  is_ValueError e = false -> is_ObjectDoesNotExist e = false ->
  ForeignKeyWidget.lookup self s obj w = (Raise e, logged w [StorageGetPk s]).
Proof.
  intros Hpk Hv Hd. run_M. rewrite Hpk. simpl. rewrite Hv, Hd. reflexivity.
Qed.

(** [clean] on a text that is not empty, path by path. *)
Lemma clean_paths (self : Model) (s : string) (w : world) :
  let key := ForeignKeyWidget.cache_key self s in
  let obj := cache.answer w key in
  s ≠ "" ->
  ForeignKeyWidget.clean self (VStr s) w
  = if truthy obj then (Return obj, logged w [CacheGet key])
    else
      match objects.find_pk self s with
      | Return o =>
          (Return (VObj o),
           stored w key (VObj o)
             [CacheGet key; StorageGetPk s; CacheSet key (VObj o)])
      | Raise (ValueError _) =>
          if decide ("title" ∈ fields self) then
            match objects.find_title self s with
            | Return o =>
                (Return (VObj o),
                 stored w key (VObj o)
                   [CacheGet key; StorageGetPk s; StorageGetTitle s;
                    CacheSet key (VObj o)])
            | Raise e =>
                (Raise e,
                 logged w [CacheGet key; StorageGetPk s; StorageGetTitle s])
            end
          else
            (Return obj,
             stored w key obj [CacheGet key; StorageGetPk s; CacheSet key obj])
      | Raise (DoesNotExist _) =>
          (Return obj,
           stored w key obj
             [CacheGet key; StorageGetPk s; Stdout ("DNE " +:+ s);
              CacheSet key obj])
      | Raise e => (Raise e, logged w [CacheGet key; StorageGetPk s])
      end.
Proof.
  intros key obj Hs.
  destruct (truthy obj) eqn:Ht; [apply (clean_hit self s w Hs Ht)|].
  destruct (objects.find_pk self s) as [o|e] eqn:Hpk.
  - rewrite clean_text by assumption. fold key. fold obj. rewrite Ht.
    rewrite (lookup_found _ _ _ _ o Hpk), logged_logged, stored_logged.
    reflexivity.
  - destruct (find_pk_raises _ _ _ Hpk) as [msg [->|[->| ->]]].
    + destruct (decide ("title" ∈ fields self)) as [Hf|Hf].
      * apply (clean_by_title self s w msg Hs Ht Hpk Hf).
      * rewrite clean_text by assumption. fold key. fold obj. rewrite Ht.
        rewrite (lookup_malformed_no_title _ _ _ _ msg Hpk Hf).
        rewrite logged_logged, stored_logged. reflexivity.
    + rewrite clean_text by assumption. fold key. fold obj. rewrite Ht.
      rewrite (lookup_missing _ _ _ _ msg Hpk).
      rewrite logged_logged, stored_logged. reflexivity.
    + rewrite clean_text by assumption. fold key. fold obj. rewrite Ht.
      rewrite (lookup_other _ _ _ _ _ Hpk) by reflexivity.
      rewrite logged_logged. reflexivity.
Qed.

Lemma find_pk_found (self : Model) (s : string) (o : instance) :
  objects.find_pk self s = Return o ->
  o ∈ table self /\ to_python self s = Return (inst_pk o).
Proof.
  unfold objects.find_pk. destruct (to_python self s) as [k|e]; [|discriminate].
  intros H.
  assert (Hin : o ∈ filter (λ o, inst_pk o = k) (table self)).
  { destruct (filter _ (table self)) as [|o1 [|o2 l]]; try discriminate H.
    inversion H; subst. left. }
  apply list_elem_of_filter in Hin as [Hk Hin]. split; [exact Hin|]. congruence.
Qed.

Lemma find_title_found (self : Model) (s : string) (o : instance) :
  objects.find_title self s = Return o -> o ∈ table self /\ inst_title o = s.
Proof.
  unfold objects.find_title. intros H.
  assert (Hin : o ∈ filter (λ o, inst_title o = s) (table self)).
  { destruct (filter _ (table self)) as [|o1 [|o2 l]]; try discriminate H.
    inversion H; subst. left. }
  apply list_elem_of_filter in Hin as [Hk Hin]. auto.
Qed.

(** Exactly one row with the key makes the primary lookup answer it. *)
Lemma find_pk_unique (self : Model) (s : string) (o : instance) :
  to_python self s = Return (inst_pk o) ->
  filter (λ r, inst_pk r = inst_pk o) (table self) = [o] ->
  objects.find_pk self s = Return o.
Proof. intros Hk Hf. unfold objects.find_pk. rewrite Hk, Hf. reflexivity. Qed.

Lemma clean_caches_what_it_returns_aux (self : Model) (s : string) (w w1 : world)
    (v : val) :
  s ≠ "" ->
  ForeignKeyWidget.clean self (VStr s) w = (Return v, w1) ->
  cache.answer w1 (ForeignKeyWidget.cache_key self s) = v.
Proof.
  intros Hs H. rewrite clean_text in H by assumption.
  set (key := ForeignKeyWidget.cache_key self s) in *.
  destruct (truthy (cache.answer w key)).
  - inversion H; subst. reflexivity.
  - destruct (ForeignKeyWidget.lookup self s _ _) as [[v'|e] w'];
      inversion H; subst. apply answer_stored.
Qed.

Lemma clean_rejects_non_text_aux (self : Model) (value : val) (w : world) :
  truthy value = true ->
  (forall s, value ≠ VStr s) ->
  exists e, ForeignKeyWidget.clean self value w = (Raise e, w).
Proof.
  intros Ht Hn.
  unfold ForeignKeyWidget.clean, Widget.clean. rewrite Ht.
  destruct value as [|s|n|b|d|d|t|o]; try discriminate Ht;
    try (exfalso; apply (Hn s); reflexivity); eexists; reflexivity.
Qed.

(** X1: on a cache miss, when exactly one row has the key the identifier
    stands for, [clean] returns that row after one cache read, one primary
    lookup and one cache write, and the cache then holds the row under the
    key. *)
Theorem clean_miss_resolves (self : Model) (s : string) (w : world) (o : instance) :
  let key := ForeignKeyWidget.cache_key self s in
  s ≠ "" ->
  truthy (cache.answer w key) = false ->
  to_python self s = Return (inst_pk o) ->
  filter (λ r, inst_pk r = inst_pk o) (table self) = [o] ->
  ForeignKeyWidget.clean self (VStr s) w
  = (Return (VObj o),
     stored w key (VObj o) [CacheGet key; StorageGetPk s; CacheSet key (VObj o)]) /\
  w_cache (snd (ForeignKeyWidget.clean self (VStr s) w)) !! key = Some (VObj o) /\
  ForeignKeyWidget.render (VObj o) = Return (value_of_pk (inst_pk o)).
Proof.
  intros key Hs Ht Hk Hf.
  assert (Hcall : ForeignKeyWidget.clean self (VStr s) w
            = (Return (VObj o),
               stored w key (VObj o)
                 [CacheGet key; StorageGetPk s; CacheSet key (VObj o)])).
  { rewrite clean_paths by assumption. fold key. rewrite Ht.
    rewrite (find_pk_unique self s o Hk Hf). reflexivity. }
  split; [exact Hcall|]. split; [|reflexivity].
  rewrite Hcall. apply lookup_insert_eq.
Qed.

Lemma clean_miss_resolves_witness :
  ForeignKeyWidget.clean category (VStr " 42") fresh
  = (Return (VObj widgets),
     stored fresh "shop_category_42" (VObj widgets)
       [CacheGet "shop_category_42"; StorageGetPk " 42";
        CacheSet "shop_category_42" (VObj widgets)]).
Proof.
  apply (clean_miss_resolves category " 42" fresh widgets).
  - discriminate.
  - reflexivity.
  - vm_compute. reflexivity.
  - vm_compute. reflexivity.
Defined.

(** X2: after a [clean] of a text that returns, the cache answers the
    returned value under the key of the text. *)
Theorem clean_caches_what_it_returns (self : Model) (s : string) (w w1 : world)
    (v : val) :
  s ≠ "" ->
  ForeignKeyWidget.clean self (VStr s) w = (Return v, w1) ->
  cache.answer w1 (ForeignKeyWidget.cache_key self s) = v.
Proof.
  apply clean_caches_what_it_returns_aux.
Qed.

Lemma clean_caches_what_it_returns_witness :
  cache.answer (snd (ForeignKeyWidget.clean category (VStr "Widgets") fresh))
    "shop_category_Widgets" = VObj widgets.
Proof.
  apply (clean_caches_what_it_returns category "Widgets" fresh _ (VObj widgets)).
  - discriminate.
  - vm_compute. reflexivity.
Defined.

(** X3: [clean] leaves every cache entry but the one of its own key as it
    was, whatever the value and however the call ends. *)
Theorem clean_cache_frame (self : Model) (value : val) (w : world) (k : string) :
  (forall s, value = VStr s -> k ≠ ForeignKeyWidget.cache_key self s) ->
  w_cache (snd (ForeignKeyWidget.clean self value w)) !! k = w_cache w !! k.
Proof.
  intros Hk.
  destruct (truthy value) eqn:Ht.
  2: { unfold ForeignKeyWidget.clean, Widget.clean. rewrite Ht. reflexivity. }
  destruct value as [|s| | | | | |];
    try (unfold ForeignKeyWidget.clean, Widget.clean; rewrite Ht; reflexivity).
  assert (Hs : s ≠ "") by (intros ->; discriminate Ht).
  specialize (Hk s eq_refl).
  rewrite clean_paths by assumption.
  set (key := ForeignKeyWidget.cache_key self s) in *.
  destruct (truthy (cache.answer w key)); [reflexivity|].
  destruct (objects.find_pk self s) as [o|[]]; simpl;
    try reflexivity; try (apply lookup_insert_ne; congruence).
  destruct (decide ("title" ∈ fields self));
    [destruct (objects.find_title self s)|]; simpl;
    try reflexivity; apply lookup_insert_ne; congruence.
Qed.

Lemma clean_cache_frame_witness :
  w_cache (snd (ForeignKeyWidget.clean category (VStr "99") warm))
    !! "shop_category_42" = Some (VObj widgets).
Proof.
  rewrite (clean_cache_frame category (VStr "99") warm "shop_category_42").
  - vm_compute. reflexivity.
  - intros s H. inversion H; subst. discriminate.
Defined.

(** X4: two identifiers that differ only in their spaces share one cache
    entry: once [clean] of one of them has returned an entity, [clean] of
    the other returns the same entity from the cache, with no storage query
    and no cache write, whether or not storage would have matched it. *)
Theorem clean_shares_cache_across_spaces (self : Model) (s s' : string)
    (w w1 : world) (o : instance) :
  remove_char " " s = remove_char " " s' ->
  s ≠ "" -> s' ≠ "" ->
  ForeignKeyWidget.clean self (VStr s) w = (Return (VObj o), w1) ->
  ForeignKeyWidget.clean self (VStr s') w1
  = (Return (VObj o), logged w1 [CacheGet (ForeignKeyWidget.cache_key self s)]) /\
  queries_storage (events_of (ForeignKeyWidget.clean self (VStr s')) w1) = false.
Proof.
  intros Heq Hs Hs' H.
  assert (Hkey : ForeignKeyWidget.cache_key self s' = ForeignKeyWidget.cache_key self s)
    by (unfold ForeignKeyWidget.cache_key; rewrite Heq; reflexivity).
  pose proof (clean_caches_what_it_returns_aux self s w w1 (VObj o) Hs H) as Hans.
  assert (Hcall : ForeignKeyWidget.clean self (VStr s') w1
            = (Return (VObj o),
               logged w1 [CacheGet (ForeignKeyWidget.cache_key self s)])).
  { rewrite <- Hkey in *. rewrite <- Hans at 1.
    apply clean_hit; [exact Hs' | rewrite Hans; reflexivity]. }
  split; [exact Hcall|].
  rewrite (events_of_logged _ _ _ _ Hcall). reflexivity.
Qed.

Lemma clean_shares_cache_across_spaces_witness :
  ForeignKeyWidget.clean category (VStr "4 2")
    (snd (ForeignKeyWidget.clean category (VStr "42") fresh))
  = (Return (VObj widgets),
     logged (snd (ForeignKeyWidget.clean category (VStr "42") fresh))
       [CacheGet "shop_category_42"]) /\
  objects.find_pk category "4 2"
  = Raise (ValueError "invalid literal for int() with base 10").
Proof.
  split; [|vm_compute; reflexivity].
  apply (clean_shares_cache_across_spaces category "42" "4 2" fresh _ widgets).
  - reflexivity.
  - discriminate.
  - discriminate.
  - vm_compute. reflexivity.
Defined.

(** X5: a truthy value that is not a text (a number, a boolean, a date, an
    entity) makes [clean] raise at [pk.replace], before the cache or storage
    is touched: [AttributeError], or [TypeError] for a date or datetime. *)
Theorem clean_rejects_non_text (self : Model) (value : val) (w : world) :
  truthy value = true ->
  (forall s, value ≠ VStr s) ->
  ForeignKeyWidget.clean self value w
  = (Raise (match value with
            | VDate _ | VDateTime _ => TypeError "an integer is required"
            | _ => AttributeError "object has no attribute 'replace'"
            end), w).
Proof.
  intros Ht Hn.
  unfold ForeignKeyWidget.clean, Widget.clean. rewrite Ht.
  destruct value as [|s|n|b|d|d|t|o]; try discriminate Ht;
    try (exfalso; apply (Hn s); reflexivity); reflexivity.
Qed.

Lemma clean_rejects_non_text_witness :
  ForeignKeyWidget.clean category (VInt 42) fresh
  = (Raise (AttributeError "object has no attribute 'replace'"), fresh).
Proof.
  apply (clean_rejects_non_text category (VInt 42) fresh).
  - reflexivity.
  - intros s H. discriminate H.
Defined.

(** X6: the events of one [clean], whatever the value and the state: none
    at all, or the cache read followed by at most the primary lookup, the
    title lookup and the cache write, in that order.  So a call makes at
    most two storage queries, never the title lookup without the primary
    one, and at most one cache write, which is its last event. *)
Theorem clean_event_shapes (self : Model) (value : val) (w : world) :
  let evs := events_of (ForeignKeyWidget.clean self value) w in
  evs = [] \/
  exists s,
    value = VStr s /\
    let key := ForeignKeyWidget.cache_key self s in
    (evs = [CacheGet key] \/
     evs = [CacheGet key; StorageGetPk s] \/
     evs = [CacheGet key; StorageGetPk s; StorageGetTitle s] \/
     exists v,
       fst (ForeignKeyWidget.clean self value w) = Return v /\
       (evs = [CacheGet key; StorageGetPk s; CacheSet key v] \/
        evs = [CacheGet key; StorageGetPk s; Stdout ("DNE " +:+ s);
               CacheSet key v] \/
        evs = [CacheGet key; StorageGetPk s; StorageGetTitle s;
               CacheSet key v])).
Proof.
  intros evs.
  assert (Hnone : forall r, ForeignKeyWidget.clean self value w = (r, w) -> evs = []).
  { intros r Hr. unfold evs, events_of. rewrite Hr. simpl. apply drop_all. }
  destruct (truthy value) eqn:Ht.
  2: { left. apply (Hnone (Return VNone)).
       unfold ForeignKeyWidget.clean, Widget.clean. rewrite Ht. reflexivity. }
  assert (Htext : (exists s, value = VStr s) \/ (forall s, value ≠ VStr s))
    by (destruct value; eauto; right; intros s Hs; discriminate Hs).
  destruct Htext as [[s Hv]|Hn]; [subst value|].
  2: { left. destruct (clean_rejects_non_text_aux self value w Ht) as [e He].
       { exact Hn. }
       apply (Hnone _ He). }
  right. exists s. split; [reflexivity|]. intros key.
  assert (Hs : s ≠ "") by (intros ->; discriminate Ht).
  pose proof (clean_paths self s w Hs) as Hc. cbv zeta in Hc. fold key in Hc.
  assert (Hl : forall r l, ForeignKeyWidget.clean self (VStr s) w = (r, logged w l) ->
                           evs = l)
    by (intros r l Hr; apply (events_of_logged _ _ _ _ Hr)).
  assert (Hst : forall r v l,
            ForeignKeyWidget.clean self (VStr s) w = (r, stored w key v l) ->
            evs = l /\ fst (ForeignKeyWidget.clean self (VStr s) w) = r)
    by (intros r v l Hr; split;
        [apply (events_of_stored _ _ _ _ _ _ Hr) | rewrite Hr; reflexivity]).
  destruct (truthy (cache.answer w key)).
  { left. apply (Hl _ _ Hc). }
  destruct (objects.find_pk self s) as [o|e] eqn:Hpk.
  { destruct (Hst _ _ _ Hc) as [He Hr]. right; right; right.
    exists (VObj o). split; [exact Hr | left; exact He]. }
  destruct (find_pk_raises _ _ _ Hpk) as [msg [->|[->| ->]]].
  - destruct (decide ("title" ∈ fields self)).
    + destruct (objects.find_title self s) as [o'|e'].
      * destruct (Hst _ _ _ Hc) as [He Hr]. right; right; right.
        exists (VObj o'). split; [exact Hr | right; right; exact He].
      * right; right; left. apply (Hl _ _ Hc).
    + destruct (Hst _ _ _ Hc) as [He Hr]. right; right; right.
      exists (cache.answer w key). split; [exact Hr | left; exact He].
  - destruct (Hst _ _ _ Hc) as [He Hr]. right; right; right.
    exists (cache.answer w key). split; [exact Hr | right; left; exact He].
  - right; left. apply (Hl _ _ Hc).
Qed.

(** X7: an entity [clean] returns after a cache miss is a row of the
    model's table that matches the identifier: its key is the key the
    identifier stands for, or, when the identifier is no key at all and the
    model has a [title] field, its title is the identifier. *)
Theorem clean_returns_matching_row (self : Model) (s : string) (w w1 : world)
    (o : instance) :
  truthy (cache.answer w (ForeignKeyWidget.cache_key self s)) = false ->
  ForeignKeyWidget.clean self (VStr s) w = (Return (VObj o), w1) ->
  o ∈ table self /\
  (to_python self s = Return (inst_pk o) \/
   (inst_title o = s /\ "title" ∈ fields self /\
    exists msg, to_python self s = Raise (ValueError msg))).
Proof.
  intros Ht H.
  assert (Hs : s ≠ "") by (intros ->; vm_compute in H; discriminate H).
  rewrite clean_paths in H by assumption. rewrite Ht in H.
  destruct (objects.find_pk self s) as [o1|e] eqn:Hpk.
  - inversion H; subst. destruct (find_pk_found _ _ _ Hpk). auto.
  - destruct (find_pk_raises _ _ _ Hpk) as [msg [->|[->| ->]]].
    + destruct (decide ("title" ∈ fields self)) as [Hf|Hf].
      * destruct (objects.find_title self s) as [o1|e1] eqn:Htitle;
          inversion H; subst.
        destruct (find_title_found _ _ _ Htitle) as [Hin Ho].
        split; [exact Hin|]. right. split; [exact Ho|]. split; [exact Hf|].
        exists msg. unfold objects.find_pk in Hpk.
        destruct (to_python self s) as [k|e2] eqn:Hk.
        -- apply get_single_raises in Hpk as [_ Hx]. discriminate Hx.
        -- congruence.
      * inversion H as [[Hv Hw]]. rewrite Hv in Ht. discriminate Ht.
    + inversion H as [[Hv Hw]]. rewrite Hv in Ht. discriminate Ht.
    + discriminate H.
Qed.

Lemma clean_returns_matching_row_witness :
  widgets ∈ table category /\
  (to_python category "Widgets" = Return (inst_pk widgets) \/
   (inst_title widgets = "Widgets" /\ "title" ∈ fields category /\
    exists msg, to_python category "Widgets" = Raise (ValueError msg))).
Proof.
  apply (clean_returns_matching_row category "Widgets" fresh
           (snd (ForeignKeyWidget.clean category (VStr "Widgets") fresh))).
  - reflexivity.
  - vm_compute. reflexivity.
Defined.

Ltac no_title_event :=
  repeat (constructor; [intros ? Hx; discriminate Hx|]); constructor.

(** X8: on a model with a text key the primary lookup never fails as a
    malformed key, so [clean] never makes the title lookup, even when the
    model has a [title] field: an identifier that is only a title resolves
    to nothing there. *)
Theorem clean_text_key_never_asks_title (self : Model) (value : val) (w : world)
    (t : string) :
  pk_field self = TextKey ->
  StorageGetTitle t ∉ events_of (ForeignKeyWidget.clean self value) w.
Proof.
  intros Hkey Hin.
  assert (Hnone : forall r, ForeignKeyWidget.clean self value w = (r, w) -> False).
  { intros r Hr. unfold events_of in Hin. rewrite Hr in Hin. simpl in Hin.
    rewrite drop_all in Hin. inversion Hin. }
  destruct (truthy value) eqn:Ht.
  2: { apply (Hnone (Return VNone)).
       unfold ForeignKeyWidget.clean, Widget.clean. rewrite Ht. reflexivity. }
  assert (Htext : (exists s, value = VStr s) \/ (forall s, value ≠ VStr s))
    by (destruct value; eauto; right; intros s Hs; discriminate Hs).
  destruct Htext as [[s Hv]|Hn]; [subst value|].
  2: { destruct (clean_rejects_non_text_aux self value w Ht Hn) as [e He].
       apply (Hnone _ He). }
  assert (Hs : s ≠ "") by (intros ->; discriminate Ht).
  pose proof (clean_paths self s w Hs) as Hc. cbv zeta in Hc.
  set (key := ForeignKeyWidget.cache_key self s) in *.
  assert (Hl : forall r l, ForeignKeyWidget.clean self (VStr s) w = (r, logged w l) ->
                           StorageGetTitle t ∈ l)
    by (intros r l Hr; rewrite <- (events_of_logged _ _ _ _ Hr); exact Hin).
  assert (Hst : forall r v l,
            ForeignKeyWidget.clean self (VStr s) w = (r, stored w key v l) ->
            StorageGetTitle t ∈ l)
    by (intros r v l Hr; rewrite <- (events_of_stored _ _ _ _ _ _ Hr); exact Hin).
  assert (Hno : forall l, Forall (fun ev => forall x, ev ≠ StorageGetTitle x) l ->
                          StorageGetTitle t ∈ l -> False).
  { intros l Hall Ht'. rewrite Forall_forall in Hall.
    apply (Hall _ Ht' t). reflexivity. }
  destruct (truthy (cache.answer w key)).
  { eapply Hno; [|apply (Hl _ _ Hc)]; no_title_event. }
  destruct (objects.find_pk self s) as [o|e] eqn:Hpk.
  { eapply Hno; [|apply (Hst _ _ _ Hc)]; no_title_event. }
  destruct (find_pk_raises _ _ _ Hpk) as [msg [->|[->| ->]]].
  - apply find_pk_malformed in Hpk as [Hint _]. congruence.
  - eapply Hno; [|apply (Hst _ _ _ Hc)]; no_title_event.
  - eapply Hno; [|apply (Hl _ _ Hc)]; no_title_event.
Qed.

Lemma clean_text_key_never_asks_title_witness :
  StorageGetTitle "Atlantis"
    ∉ (events_of
         (ForeignKeyWidget.clean
            (mkModel "geo" "country" TextKey ["code"; "title"]
               [mkInstance (PkStr "42") "Atlantis" "Atlantis"])
            (VStr "Atlantis")) fresh).
Proof.
  apply clean_text_key_never_asks_title. reflexivity.
Defined.

(** * More on the reference-set widget *)

Lemma m2m_clean_text (self : Model) (s : string) (w : world) :
  s ≠ "" ->
  ManyToManyWidget.clean self (VStr s) w
  = (objects.select_pk_in self (split "," s),
     logged w [StorageFilterPkIn (split "," s)]).
Proof.
  intros Hs. unfold ManyToManyWidget.clean. rewrite (truthy_text s Hs). simpl.
  run_M. reflexivity.
Qed.

Lemma split_comma_free (p : string) : comma_free p -> split "," p = [p].
Proof.
  unfold comma_free, chars. induction p as [|c p IH]; simpl; intros H; [reflexivity|].
  inversion H as [|? ? Hc Hp]; subst.
  destruct (Ascii.eqb_spec c ","); [contradiction|].
  rewrite (IH Hp). reflexivity.
Qed.

Lemma split_piece (p r : string) :
  comma_free p -> split "," (p +:+ String "," r) = p :: split "," r.
Proof.
  unfold comma_free, chars. induction p as [|c p IH]; simpl; intros H; [reflexivity|].
  inversion H as [|? ? Hc Hp]; subst.
  destruct (Ascii.eqb_spec c ","); [contradiction|].
  rewrite (IH Hp). reflexivity.
Qed.

(** What [join] wrote, [split] cuts back into the same pieces. *)
Lemma split_join (pieces : list string) :
  pieces ≠ [] -> Forall comma_free pieces ->
  split "," (join "," pieces) = pieces.
Proof.
  induction pieces as [|p ps IH]; [contradiction|].
  intros _ H. inversion H as [|? ? Hp Hps]; subst.
  destruct ps as [|p' ps].
  - simpl. apply split_comma_free, Hp.
  - change (join "," (p :: p' :: ps)) with (p +:+ String "," (join "," (p' :: ps))).
    rewrite (split_piece _ _ Hp), IH by (assumption || discriminate). reflexivity.
Qed.

Lemma str_of_Z_comma_free (n : Z) : comma_free (str_of_Z n).
Proof.
  assert (Hd : forall l, forallb is_digit l = true -> Forall (fun c => c ≠ ","%char) l).
  { induction l as [|c l IH]; simpl; intros H; constructor.
    - apply andb_true_iff in H as [H _]. intros ->. discriminate H.
    - apply andb_true_iff in H as [_ H]. apply IH, H. }
  unfold comma_free, str_of_Z. destruct (n <? 0).
  - constructor; [discriminate|]. apply Hd, str_of_N_digits.
  - apply Hd, str_of_N_digits.
Qed.

Lemma join_not_empty (sep p : string) (ps : list string) :
  p ≠ "" -> join sep (p :: ps) ≠ "".
Proof.
  intros Hp. destruct ps as [|p' ps]; simpl; [exact Hp|].
  destruct p; [contradiction | discriminate].
Qed.

Lemma str_of_Z_not_empty (n : Z) : str_of_Z n ≠ "".
Proof.
  intros H. pose proof (int_of_string_str n) as Hr. rewrite H in Hr. discriminate Hr.
Qed.

Lemma filter_in_nil (l : list instance) :
  filter (λ o, inst_pk o ∈ @nil pk_value) l = [].
Proof.
  induction l as [|o l IH]; [reflexivity|].
  rewrite filter_cons_False; [exact IH|]. intros H. inversion H.
Qed.

Lemma filter_all {A} (P : A -> Prop) `{forall x, Decision (P x)} (l : list A) :
  Forall P l -> filter P l = l.
Proof.
  induction 1 as [|x l Hx Hl IH]; [reflexivity|].
  rewrite filter_cons_True by exact Hx. f_equal. exact IH.
Qed.

(** The texts [render] joins for rows with integer keys: free of commas,
    and read back by the key field as the keys they were written from. *)
Lemma rendered_keys (self : Model) (rows : list instance) :
  pk_field self = IntegerKey ->
  (forall o, o ∈ rows -> exists n, inst_pk o = PkInt n) ->
  Forall comma_free (map (fun obj => str_of_pk (inst_pk obj)) rows) /\
  Forall (fun p => p ≠ "") (map (fun obj => str_of_pk (inst_pk obj)) rows) /\
  to_python_all self (map (fun obj => str_of_pk (inst_pk obj)) rows)
  = Return (map inst_pk rows).
Proof.
  intros Hkey Hint. induction rows as [|o l IH].
  - repeat split; constructor.
  - destruct (Hint o) as [n Hn]; [left|].
    destruct IH as (IH1 & IH2 & IH3); [intros o' Ho'; apply Hint; right; exact Ho'|].
    cbn [map]. rewrite Hn. cbn [str_of_pk]. repeat split.
    + constructor; [apply str_of_Z_comma_free | exact IH1].
    + constructor; [apply str_of_Z_not_empty | exact IH2].
    + cbn [to_python_all]. unfold to_python at 1.
      rewrite Hkey, int_of_string_str, IH3. reflexivity.
Qed.

(** X9: on a model with an integer key, [clean] of what [render] wrote for
    a collection of rows is the rows of the table whose key is the key of a
    row of the collection, in table order; rendering the whole table and
    cleaning the text gives the table back. *)
Theorem m2m_render_then_clean (self : Model) (rows : list instance) (w : world) :
  pk_field self = IntegerKey ->
  (forall o, o ∈ rows -> exists n, inst_pk o = PkInt n) ->
  fst (ManyToManyWidget.clean self (VStr (ManyToManyWidget.render rows)) w)
  = Return (filter (λ o, inst_pk o ∈ map inst_pk rows) (table self)) /\
  (rows = table self ->
   fst (ManyToManyWidget.clean self (VStr (ManyToManyWidget.render rows)) w)
   = Return (table self)).
Proof.
  intros Hkey Hint.
  assert (Hmain : fst (ManyToManyWidget.clean self
                         (VStr (ManyToManyWidget.render rows)) w)
                  = Return (filter (λ o, inst_pk o ∈ map inst_pk rows) (table self))).
  { destruct (rendered_keys self rows Hkey Hint) as (Hfree & Hne & Hconv).
    unfold ManyToManyWidget.render.
    set (ids := map (fun obj => str_of_pk (inst_pk obj)) rows) in *.
    destruct ids as [|p ps] eqn:Hids.
    { destruct rows; [|discriminate Hids]. simpl. rewrite filter_in_nil. reflexivity. }
    assert (Hj : join "," (p :: ps) ≠ "").
    { apply join_not_empty. inversion Hne; assumption. }
    rewrite (m2m_clean_text self _ w Hj). cbn [fst].
    rewrite split_join by (discriminate || assumption).
    unfold objects.select_pk_in. rewrite Hconv. reflexivity. }
  split; [exact Hmain|].
  intros ->. rewrite Hmain. f_equal. apply filter_all.
  apply Forall_forall. intros o Ho. apply list_elem_of_fmap. eauto.
Qed.

Lemma m2m_render_then_clean_witness :
  fst (ManyToManyWidget.clean category
         (VStr (ManyToManyWidget.render [toys; books])) fresh)
  = Return (filter (λ o, inst_pk o ∈ map inst_pk [toys; books]) (table category)).
Proof.
  apply (m2m_render_then_clean category [toys; books] fresh).
  - reflexivity.
  - intros o Ho. apply elem_of_cons in Ho as [->|Ho]; [eexists; reflexivity|].
    apply elem_of_cons in Ho as [->|Ho]; [eexists; reflexivity|]. inversion Ho.
Defined.

(** X10: the rows [clean] returns depend on the keys named, not on their
    order or on how often each is named; they are rows of the table in table
    order, each at most once when the table has no row twice. *)
Theorem m2m_clean_ignores_order (self : Model) (s s' : string) (w : world)
    (ks ks' : list pk_value) :
  s ≠ "" -> s' ≠ "" ->
  to_python_all self (split "," s) = Return ks ->
  to_python_all self (split "," s') = Return ks' ->
  (forall k, k ∈ ks <-> k ∈ ks') ->
  fst (ManyToManyWidget.clean self (VStr s) w)
  = fst (ManyToManyWidget.clean self (VStr s') w) /\
  exists rows,
    fst (ManyToManyWidget.clean self (VStr s) w) = Return rows /\
    rows `sublist_of` table self /\
    (NoDup (table self) -> NoDup rows).
Proof.
  intros Hs Hs' Hks Hks' Hsame.
  rewrite (m2m_clean_text self s w Hs), (m2m_clean_text self s' w Hs'). cbn [fst].
  unfold objects.select_pk_in. rewrite Hks, Hks'. split.
  - f_equal. apply list_filter_iff. intros o. apply Hsame.
  - eexists. split; [reflexivity|]. split.
    + apply sublist_filter.
    + apply NoDup_filter.
Qed.

Lemma m2m_clean_ignores_order_witness :
  fst (ManyToManyWidget.clean category (VStr "3,1,3") fresh)
  = fst (ManyToManyWidget.clean category (VStr "1,3") fresh).
Proof.
  apply (m2m_clean_ignores_order category "3,1,3" "1,3" fresh
           [PkInt 3; PkInt 1; PkInt 3] [PkInt 1; PkInt 3]).
  - discriminate.
  - discriminate.
  - vm_compute. reflexivity.
  - vm_compute. reflexivity.
  - intros k. rewrite !elem_of_cons. pose proof (not_elem_of_nil k). tauto.
Defined.

(** * More on the scalar widgets *)

(** X11: [clean] after [render] of the boolean widget is the truth value
    of what was rendered, for every value; and whatever [clean] returns
    comes back unchanged from a pass through [render] and [clean]. *)
Theorem boolean_render_then_clean (v : val) :
  BooleanWidget.clean (BooleanWidget.render v) = Return (VBool (truthy v)) /\
  (forall r, BooleanWidget.clean v = Return r ->
             BooleanWidget.clean (BooleanWidget.render r) = Return r).
Proof.
  split.
  - unfold BooleanWidget.render. destruct (truthy v); reflexivity.
  - intros r Hr. unfold BooleanWidget.clean in Hr.
    destruct (py_in v BooleanWidget.TRUE_VALUES) as [[]|e];
      inversion Hr; subst; reflexivity.
Qed.

Lemma boolean_render_then_clean_witness :
  BooleanWidget.clean (BooleanWidget.render (VBool false)) = Return (VBool false).
Proof.
  apply (proj2 (boolean_render_then_clean (VStr "yes")) (VBool false)).
  reflexivity.
Defined.

Lemma py_in_true_values (v : val) :
  py_in v BooleanWidget.TRUE_VALUES
  = match as_number v with
    | Some d =>
        if is_signaling d
        then Raise (InvalidOperation "comparison involving sNaN")
        else Return (decimal_eqb d (DecFinite false 1 0))
    | None => Return (bool_decide (v = VStr "1"))
    end.
Proof.
  unfold BooleanWidget.TRUE_VALUES. cbn [py_in].
  destruct v as [|s|n|b|d|d|t|o]; unfold py_eq; cbn [as_number];
    try reflexivity.
  - destruct (bool_decide (VStr s = VStr "1")); reflexivity.
  - cbn [is_signaling orb]. destruct (decimal_eqb _ _); reflexivity.
  - cbn [is_signaling orb]. destruct (decimal_eqb _ _); reflexivity.
  - change (is_signaling (DecFinite (1 <? 0) (Z.abs_N 1) 0)) with false.
    rewrite orb_false_r. destruct (is_signaling d); [reflexivity|].
    destruct (decimal_eqb _ _); reflexivity.
Qed.

(** X12: the boolean widget answers [True] for the text ["1"] and for a
    number equal to one (the integer 1, [True], a decimal such as 1.0); it
    raises [InvalidOperation] for a signaling NaN, whose comparison with 1
    raises; and it answers [False] for every other value: every other text,
    [None], dates, entities. *)
Theorem boolean_clean_true_values (v : val) :
  (BooleanWidget.clean v = Return (VBool true) <->
   v = VStr "1" \/
   exists d, as_number v = Some d /\ is_signaling d = false /\
             decimal_eqb d (DecFinite false 1 0) = true) /\
  ((exists e, BooleanWidget.clean v = Raise e) <->
   exists sign diag, v = VDecimal (DecNaN sign true diag)) /\
  (BooleanWidget.clean v = Return (VBool true) \/
   BooleanWidget.clean v = Return (VBool false) \/
   BooleanWidget.clean v
   = Raise (InvalidOperation "comparison involving sNaN")).
Proof.
  unfold BooleanWidget.clean. rewrite py_in_true_values.
  destruct (as_number v) as [d|] eqn:Hnum.
  - destruct (is_signaling d) eqn:Hsig.
    + split; [|split].
      * split; [discriminate|].
        intros [->|(d' & Hd' & Hs & _)]; [discriminate Hnum | congruence].
      * split; [intros _|eauto].
        destruct v; try discriminate Hnum; cbn [as_number] in Hnum;
          inversion Hnum; subst; try discriminate Hsig.
        destruct d as [| |sign [] diag]; try discriminate Hsig. eauto.
      * right; right. reflexivity.
    + destruct (decimal_eqb d (DecFinite false 1 0)) eqn:He.
      * split; [|split].
        -- split; [intros _; right; eauto | reflexivity].
        -- split; [intros [e H]; discriminate H|].
           intros (sign & diag & ->). inversion Hnum; subst. discriminate Hsig.
        -- left. reflexivity.
      * split; [|split].
        -- split; [discriminate|].
           intros [->|(d' & Hd' & _ & Heq)]; [discriminate Hnum | congruence].
        -- split; [intros [e H]; discriminate H|].
           intros (sign & diag & ->). inversion Hnum; subst. discriminate Hsig.
        -- right; left. reflexivity.
  - destruct (decide (v = VStr "1")) as [->|Hv].
    + split; [|split].
      * split; [auto | reflexivity].
      * split; [intros [e H]; discriminate H|].
        intros (sign & diag & H). discriminate H.
      * left. reflexivity.
    + rewrite bool_decide_eq_false_2 by exact Hv. split; [|split].
      * split; [discriminate|].
        intros [H|(d & Hd & _)]; [contradiction | discriminate Hd].
      * split; [intros [e H]; discriminate H|].
        intros (sign & diag & ->). discriminate Hnum.
      * right; left. reflexivity.
Qed.

Lemma boolean_clean_true_values_witness :
  BooleanWidget.clean (VDecimal (DecFinite false 10 (-1))) = Return (VBool true) /\
  exists e, BooleanWidget.clean (VDecimal (DecNaN false true 0)) = Raise e.
Proof.
  split.
  - apply (proj2 (proj1 (boolean_clean_true_values
                           (VDecimal (DecFinite false 10 (-1)))))).
    right. eexists. repeat split; reflexivity.
  - apply (proj2 (proj1 (proj2 (boolean_clean_true_values
                                  (VDecimal (DecNaN false true 0)))))).
    eauto.
Defined.





(** What [strptime] returns is a datetime [datetime] accepts, with no
    microseconds. *)
Lemma strptime_valid (data format : string) (t : datetime) :
  strptime data format = Return t ->
  valid_datetime t = true /\ microsecond t = 0.
Proof.
  unfold strptime.
  destruct (parse_format (chars format)) as [items|]; [|discriminate].
  destruct (negb _); [discriminate|].
  destruct (match_nodes _ _) as [[f [|c rest]]|]; try discriminate.
  match goal with |- (if valid_datetime ?x then _ else _) = _ -> _ =>
    destruct (valid_datetime x) eqn:Hv end; [|discriminate].
  intros H. inversion H; subst. split; [exact Hv | reflexivity].
Qed.

(** X15: a date the date widget reads under the default format is a real
    calendar date, and writing it and reading it again gives the same date:
    texts such as ["2020-1-5"] and ["2020-01-05"] settle on one value. *)
Theorem date_clean_is_canonical (value : val) (d : date) :
  DateWidget.clean (DateWidget.init None) value = Return (VDate d) ->
  valid_date d = true /\
  exists s,
    DateWidget.render (DateWidget.init None) (VDate d) = Return s /\
    DateWidget.clean (DateWidget.init None) (VStr s) = Return (VDate d).
Proof.
  intros H.
  assert (Hv : valid_date d = true).
  { unfold DateWidget.clean in H. destruct (negb (truthy value)); [discriminate H|].
    destruct (py_strptime value _) as [t|e] eqn:Hp; [|discriminate H].
    inversion H; subst. destruct value; try discriminate Hp.
    apply strptime_valid in Hp as [Hp _].
    apply valid_datetime_bounds in Hp as [Hp _]. exact Hp. }
  split; [exact Hv | apply date_widget_round_trip, Hv].
Qed.

Lemma date_clean_is_canonical_witness :
  valid_date (mkDate 2020 1 5) = true /\
  exists s,
    DateWidget.render (DateWidget.init None) (VDate (mkDate 2020 1 5)) = Return s /\
    DateWidget.clean (DateWidget.init None) (VStr s) = Return (VDate (mkDate 2020 1 5)).
Proof.
  apply (date_clean_is_canonical (VStr "2020-1-5")). vm_compute. reflexivity.
Defined.

(** X16: a datetime the datetime widget reads under the default format is
    a real datetime without microseconds; from 1900 on, writing it and
    reading it again gives the same datetime. *)
Theorem datetime_clean_is_canonical (value : val) (t : datetime) :
  DateTimeWidget.clean (DateTimeWidget.init None) value = Return (VDateTime t) ->
  valid_datetime t = true /\ microsecond t = 0 /\
  (1900 <= year (dt_date t) ->
   exists s,
     DateTimeWidget.render (DateTimeWidget.init None) (VDateTime t) = Return s /\
     DateTimeWidget.clean (DateTimeWidget.init None) (VStr s) = Return (VDateTime t)).
Proof.
  intros H.
  assert (Hv : valid_datetime t = true /\ microsecond t = 0).
  { unfold DateTimeWidget.clean in H.
    destruct (negb (truthy value)); [discriminate H|].
    destruct (py_strptime value _) as [t'|e] eqn:Hp; [|discriminate H].
    inversion H; subst. destruct value; try discriminate Hp.
    apply (strptime_valid _ _ _ Hp). }
  destruct Hv as [Hv Hus]. split; [exact Hv|]. split; [exact Hus|].
  intros Hy. destruct (datetime_widget_round_trip t Hv Hy) as (s & Hr & Hc).
  exists s. split; [exact Hr|]. rewrite Hc.
  destruct t as [d h m sec us]. simpl in *. subst us. reflexivity.
Qed.

Lemma datetime_clean_is_canonical_witness :
  valid_datetime (mkDateTime (mkDate 2020 1 5) 7 3 9 0) = true.
Proof.
  apply (datetime_clean_is_canonical (VStr "2020-1-5 7:3:9")). vm_compute. reflexivity.
Defined.

Lemma str_of_Z_signed (n : Z) :
  str_of_Z n = sign_text (n <? 0) +:+ str_of_N (Z.abs_N n).
Proof. unfold str_of_Z. destruct (n <? 0); reflexivity. Qed.

(** [Decimal] of the text of an integer is the integer, with exponent 0. *)
Lemma decimal_of_integer_text (n : Z) :
  decimal_of_string (str_of_Z n) = Some (DecFinite (n <? 0) (Z.abs_N n) 0).
Proof.
  rewrite str_of_Z_signed.
  destruct (str_of_N_nonempty (Z.abs_N n)) as (c & l & Hcl).
  pose proof (str_of_N_digits (Z.abs_N n)) as Hd.
  rewrite <- (text_chars (str_of_N (Z.abs_N n))), Hcl.
  rewrite decimal_of_string_body.
  - rewrite <- (app_nil_r (c :: l)).
    rewrite (parse_finite_plain (n <? 0) (c :: l) [] 0);
      [| rewrite <- Hcl; exact Hd | discriminate | left; reflexivity | reflexivity].
    rewrite <- Hcl, N_of_digits0_str. reflexivity.
  - left. rewrite Hcl in Hd. simpl in Hd. apply andb_true_iff in Hd as [Hd _]. exact Hd.
  - rewrite <- Hcl. apply digits_no_blank, Hd.
Qed.

(** X17: the text the integer widget writes for an integer is read by the
    decimal widget as that integer (coefficient its absolute value, exponent
    0); the integer widget takes the decimal back to the integer, except that
    zero, being falsy as a number, comes back as [None]. *)
Theorem integer_text_through_decimal (n : Z) :
  DecimalWidget.clean (VStr (IntegerWidget.render (VInt n)))
  = Return (VDecimal (DecFinite (n <? 0) (Z.abs_N n) 0)) /\
  IntegerWidget.clean (VDecimal (DecFinite (n <? 0) (Z.abs_N n) 0))
  = Return (if n =? 0 then VNone else VInt n).
Proof.
  split.
  - unfold DecimalWidget.clean, IntegerWidget.render, Widget.render, force_text.
    rewrite (truthy_text _ (str_of_Z_not_empty n)). simpl.
    rewrite decimal_of_integer_text. reflexivity.
  - unfold IntegerWidget.clean. cbn [truthy].
    destruct (Z.eqb_spec n 0) as [->|Hn]; [reflexivity|].
    assert (Hc : (Z.abs_N n =? 0)%N = false) by (apply N.eqb_neq; lia).
    rewrite Hc. simpl. rewrite Z.mul_1_r.
    destruct (Z.ltb_spec n 0); do 2 f_equal; lia.
Qed.

Lemma lstrip_blanks (bl l : list ascii) :
  Forall (fun c => is_space c = true) bl -> lstrip (bl ++ l) = lstrip l.
Proof.
  induction 1 as [|c bl Hc Hbl IH]; [reflexivity|].
  cbn [app lstrip]. rewrite Hc. exact IH.
Qed.

Lemma strip_blanks (bl body br : list ascii) :
  Forall (fun c => is_space c = true) bl ->
  Forall (fun c => is_space c = true) br ->
  no_blank body ->
  strip (bl ++ body ++ br) = body.
Proof.
  intros Hbl Hbr Hbody. unfold strip. rewrite (lstrip_blanks bl _ Hbl).
  destruct body as [|c body].
  - cbn [app]. rewrite <- (app_nil_r br), (lstrip_blanks br [] Hbr). reflexivity.
  - cbn [app lstrip]. inversion Hbody as [|? ? Hc Hrest]; subst. rewrite Hc.
    change (c :: body ++ br)%list with ((c :: body) ++ br)%list.
    rewrite rev_app_distr, lstrip_blanks by (apply Forall_rev, Hbr).
    rewrite lstrip_no_blank by (apply Forall_rev, Hbody).
    apply rev_involutive.
Qed.

(** X18: blanks around an integer literal do not matter to the integer
    widget: a text made of blanks, the text of an integer and blanks again
    is cleaned to that integer. *)
Theorem integer_clean_ignores_blanks (bl br : list ascii) (n : Z) :
  Forall (fun c => is_space c = true) bl ->
  Forall (fun c => is_space c = true) br ->
  IntegerWidget.clean (VStr (text (bl ++ chars (str_of_Z n) ++ br)))
  = Return (VInt n).
Proof.
  intros Hbl Hbr.
  assert (Hbody : no_blank (chars (str_of_Z n))).
  { unfold str_of_Z. destruct (n <? 0).
    - constructor; [reflexivity|]. apply digits_no_blank, str_of_N_digits.
    - apply digits_no_blank, str_of_N_digits. }
  assert (Hint : int_of_string (text (bl ++ chars (str_of_Z n) ++ br)) = Some n).
  { pose proof (int_of_string_str n) as Hn. unfold int_of_string in *.
    rewrite chars_text, (strip_blanks _ _ _ Hbl Hbr Hbody).
    rewrite (strip_no_blank _ Hbody) in Hn. exact Hn. }
  unfold IntegerWidget.clean.
  rewrite truthy_text.
  - simpl. rewrite Hint. reflexivity.
  - intros H. rewrite H in Hint. discriminate Hint.
Qed.

Lemma integer_clean_ignores_blanks_witness :
  IntegerWidget.clean (VStr " -42 ") = Return (VInt (-42)).
Proof.
  apply (integer_clean_ignores_blanks [" "%char] [" "%char] (-42));
    repeat constructor.
Defined.

Lemma N_of_digits_some (l : list ascii) (n : N) :
  N_of_digits l = Some n -> forallb is_digit l = true.
Proof.
  unfold N_of_digits. destruct l as [|c l]; [discriminate|].
  destruct (forallb is_digit (c :: l)); [reflexivity | discriminate].
Qed.

Lemma elem_of_lstrip (c : ascii) (l : list ascii) :
  c ∈ l -> is_space c = false -> c ∈ lstrip l.
Proof.
  intros Hin Hc. induction l as [|x l IH]; [inversion Hin|].
  cbn [lstrip]. destruct (is_space x) eqn:Hx; [|exact Hin].
  apply elem_of_cons in Hin as [->|Hin]; [congruence | apply IH, Hin].
Qed.

Lemma elem_of_strip (c : ascii) (l : list ascii) :
  c ∈ l -> is_space c = false -> c ∈ strip l.
Proof.
  intros Hin Hc. unfold strip.
  apply list_elem_of_In, in_rev. rewrite rev_involutive. apply list_elem_of_In.
  apply elem_of_lstrip; [|exact Hc].
  apply list_elem_of_In. rewrite <- in_rev. apply list_elem_of_In.
  apply elem_of_lstrip; assumption.
Qed.

(** The texts [int] accepts hold nothing but digits after the blanks are
    dropped, apart from one sign in front. *)
Lemma int_of_string_shape (s : string) (n : Z) (c : ascii) :
  int_of_string s = Some n -> c ∈ strip (chars s) ->
  is_digit c = true \/ c = "-"%char \/ c = "+"%char.
Proof.
  unfold int_of_string. destruct (strip (chars s)) as [|x ds]; [discriminate|].
  intros H Hin.
  assert (Hcases : (x = "-"%char \/ x = "+"%char) /\ forallb is_digit ds = true \/
                   forallb is_digit (x :: ds) = true).
  { destruct x as [[] [] [] [] [] [] [] []];
      try (right; destruct (N_of_digits _) as [m|] eqn:Hm; [|discriminate H];
           apply (N_of_digits_some _ _ Hm));
      left; (split; [auto|]);
      destruct (N_of_digits ds) as [m|] eqn:Hm; try discriminate H;
      apply (N_of_digits_some _ _ Hm). }
  assert (Hall : forall l, forallb is_digit l = true -> c ∈ l -> is_digit c = true).
  { intros l Hl Hc. rewrite forallb_forall in Hl. apply Hl, list_elem_of_In, Hc. }
  destruct Hcases as [[Hx Hds]|Hds].
  - apply elem_of_cons in Hin as [->|Hin]; [tauto | left; apply (Hall ds); assumption].
  - left. apply (Hall (x :: ds)); assumption.
Qed.

(** X19: a text with a character that is no digit, no blank and no sign (a
    decimal point, a thousands separator, a letter) is refused by the integer
    widget with [ValueError]. *)
Theorem integer_clean_rejects (s : string) (c : ascii) :
  c ∈ chars s ->
  is_digit c = false -> is_space c = false ->
  c ≠ "-"%char -> c ≠ "+"%char ->
  IntegerWidget.clean (VStr s)
  = Raise (ValueError "invalid literal for int() with base 10").
Proof.
  intros Hin Hd Hb Hm Hp.
  assert (Hs : s ≠ "") by (intros ->; inversion Hin).
  unfold IntegerWidget.clean. rewrite (truthy_text s Hs). simpl.
  destruct (int_of_string s) as [n|] eqn:Hint; [|reflexivity].
  exfalso.
  destruct (int_of_string_shape s n c Hint (elem_of_strip _ _ Hin Hb))
    as [H|[H|H]]; congruence.
Qed.

Lemma integer_clean_rejects_witness :
  IntegerWidget.clean (VStr "1,000")
  = Raise (ValueError "invalid literal for int() with base 10").
Proof.
  apply (integer_clean_rejects "1,000" ","%char).
  - right. left.
  - reflexivity.
  - reflexivity.
  - discriminate.
  - discriminate.
Defined.

Lemma split_pieces_comma_free (s : string) : Forall comma_free (split "," s).
Proof.
  induction s as [|c s IH]; [repeat constructor|].
  cbn [split]. destruct (Ascii.eqb_spec c ",") as [->|Hc].
  - constructor; [constructor | exact IH].
  - destruct (split "," s) as [|p ps]; [repeat constructor; exact Hc|].
    inversion IH as [|? ? Hp Hps]; subst.
    constructor; [|exact Hps]. constructor; [exact Hc | exact Hp].
Qed.

Lemma to_python_all_text (self : Model) (ids : list string) :
  pk_field self = TextKey -> to_python_all self ids = Return (map PkStr ids).
Proof.
  intros Hkey. induction ids as [|p ps IH]; [reflexivity|].
  cbn [to_python_all]. unfold to_python at 1. rewrite Hkey, IH. reflexivity.
Qed.

(** X20: no escaping is done, so on a model with a text key a row whose key
    contains a comma is never among the rows [clean] returns, whatever the
    value given. *)
Theorem m2m_clean_never_returns_comma_key (self : Model) (value : val)
    (w : world) (rows : list instance) (o : instance) (k : string) :
  pk_field self = TextKey ->
  inst_pk o = PkStr k ->
  ~ comma_free k ->
  fst (ManyToManyWidget.clean self value w) = Return rows ->
  o ∉ rows.
Proof.
  intros Hkey Hpk Hcomma H Hin.
  destruct (truthy value) eqn:Ht.
  2: { unfold ManyToManyWidget.clean in H. rewrite Ht in H. simpl in H.
       inversion H; subst. inversion Hin. }
  destruct value as [|s| | | | | |];
    try (unfold ManyToManyWidget.clean in H; rewrite Ht in H; discriminate H).
  assert (Hs : s ≠ "") by (intros ->; discriminate Ht).
  rewrite (m2m_clean_text self s w Hs) in H. cbn [fst] in H.
  unfold objects.select_pk_in in H.
  rewrite (to_python_all_text self _ Hkey) in H. inversion H; subst.
  apply list_elem_of_filter in Hin as [Hk _]. rewrite Hpk in Hk.
  apply list_elem_of_fmap in Hk as (p & Hp & Hin).
  inversion Hp; subst.
  pose proof (split_pieces_comma_free s) as Hfree.
  rewrite Forall_forall in Hfree. apply Hcomma, Hfree, Hin.
Qed.

Lemma m2m_clean_never_returns_comma_key_witness :
  mkInstance (PkStr "a,b") "" "pair"
    ∉ [mkInstance (PkStr "a") "" "first"; mkInstance (PkStr "b") "" "second"].
Proof.
  apply (m2m_clean_never_returns_comma_key
           (mkModel "geo" "tag" TextKey ["code"]
              [mkInstance (PkStr "a") "" "first";
               mkInstance (PkStr "a,b") "" "pair";
               mkInstance (PkStr "b") "" "second"])
           (VStr "a,b") fresh _ _ "a,b").
  - reflexivity.
  - reflexivity.
  - intros H. inversion H as [|? ? _ H1]; subst.
    inversion H1 as [|? ? Hc _]; subst. apply Hc. reflexivity.
  - vm_compute. reflexivity.
Defined.
